(** * django-elasticsearch: the lazy query set [EsQueryset]

    A shallow embedding of [django_elasticsearch/query.py].  Python objects
    that the code mutates in place (the query set itself and its [filters]
    dictionary) live in an explicit store and are named by references; all
    other attribute values are never mutated by the code after they are
    bound, so they are carried as plain values.  Calls to the search client
    are recorded in a log, which is what the statements about round trips
    talk about. *)

From Stdlib Require Import String Ascii ZArith QArith Bool Lia.
From stdpp Require Import base list strings.

Set Warnings "-register-all".

Local Open Scope string_scope.
Local Open Scope Z_scope.
Local Open Scope list_scope.

(** ** Python values *)

(** The values a caller passes as filter operands, fuzziness, ids, ... *)
Inductive pyval :=
| PNone
| PBool (b : bool)
| PInt (n : Z)
| PFloat (q : Q)
| PStr (s : string)
| PTuple (items : list pyval)
| PModel (pk : Z)            (* a django.db.models.Model instance, with its .id *)
| PDatetime (iso : string).  (* a datetime, with its .isoformat() *)

(** Python exceptions raised by the code (or by the operations it uses). *)
Inductive exn :=
| TypeError
| ValueError
| KeyError
| IndexError
| AttributeError
| NotImplementedError
| InvalidReference.          (* a reference outside the store: never a Python state *)

(** [bool(v)] *)
Definition truthy (v : pyval) : bool :=
  match v with
  | PNone => false
  | PBool b => b
  | PInt n => negb (n =? 0)
  | PFloat q => negb (Qeq_bool q 0)
  | PStr s => negb (String.eqb s "")
  | PTuple items => match items with [] => false | _ => true end
  | PModel _ => true
  | PDatetime _ => true
  end.

(** [v[i]] for a natural index [i] *)
Definition subscript (v : pyval) (i : nat) : exn + pyval :=
  match v with
  | PTuple items =>
      match items !! i with
      | Some x => inr x
      | None => inl IndexError
      end
  | PStr s =>
      match String.get i s with
      | Some c => inr (PStr (String c ""))
      | None => inl IndexError
      end
  | _ => inl TypeError
  end.

(** ** Dictionaries

    A Python [dict] keeps its keys unique and in insertion order; assigning
    to an existing key keeps its position. *)
Definition dict (V : Type) := list (string * V).

Fixpoint dict_get {V} (k : string) (d : dict V) : option V :=
  match d with
  | [] => None
  | (k', v) :: r => if String.eqb k k' then Some v else dict_get k r
  end.

(** [d[k] = v] *)
Fixpoint dict_set {V} (k : string) (v : V) (d : dict V) : dict V :=
  match d with
  | [] => [(k, v)]
  | (k', v') :: r =>
      if String.eqb k k' then (k', v) :: r else (k', v') :: dict_set k v r
  end.

(** [d.update(u)] *)
Definition dict_update {V} (d u : dict V) : dict V :=
  fold_left (fun acc kv => dict_set (fst kv) (snd kv) acc) u d.

(** [d.pop(k)] without the returned value *)
Fixpoint dict_del {V} (k : string) (d : dict V) : dict V :=
  match d with
  | [] => []
  | (k', v') :: r => if String.eqb k k' then r else (k', v') :: dict_del k r
  end.

(** ** JSON-like request bodies *)
Inductive body :=
| BVal (v : pyval)
| BList (l : list body)
| BDict (d : list (string * body)).

Definition BStr (s : string) : body := BVal (PStr s).
Definition BInt (n : Z) : body := BVal (PInt n).

(** ** Lookup strings *)

Definition is_underscore (c : ascii) : bool := Ascii.eqb c "_"%char.

Definition cons_head (c : ascii) (ws : list string) : list string :=
  match ws with
  | [] => [String c ""]
  | w :: r => String c w :: r
  end.

(** [s.split('__')]: scan from the left, cut at each occurrence of the
    separator and continue after it. *)
Fixpoint split_dunder (s : string) : list string :=
  match s with
  | EmptyString => [""]
  | String c rest =>
      match rest with
      | String d rest' =>
          if is_underscore c && is_underscore d
          then "" :: split_dunder rest'
          else cons_head c (split_dunder rest)
      | EmptyString => [String c ""]
      end
  end.

(** [s.split('.')[0]] *)
Fixpoint before_dot (s : string) : string :=
  match s with
  | EmptyString => ""
  | String c rest => if Ascii.eqb c "."%char then "" else String c (before_dot rest)
  end.

Definition valid_operators : list string :=
  ["must"; "must_not"; "should"; "range"; "gt"; "lt"; "gte"; "lte"; "exists"; "isnull"].

(** [w in l] on lists of strings *)
Definition str_in (w : string) (l : list string) : bool :=
  existsb (String.eqb w) l.

Definition is_operator (w : string) : bool := str_in w valid_operators.

(** [EsQueryset.sanitize_lookup]; the warning logged for [isnull] has no
    effect on the result and is left out. *)
Definition sanitize_lookup (lookup : string) : string * string :=
  let words := split_dunder lookup in
  let fields := List.filter (fun word => negb (is_operator word)) words in
  let operator := if is_operator (List.last words "") then List.last words "" else "must" in
  (String.concat "." fields, operator).


(** ** The index descriptor, the settings and the search client

    These are the collaborators [query.py] imports; only what the query
    set reads from them is kept. *)

(** A deserialized domain object: its [.id] and the document it came from. *)
Record instance := { inst_id : Z; inst_source : body }.

Record model_desc := {
  es_index : string;                      (* model.es.index *)
  es_mapping : dict (option string);      (* model.es.mapping['properties'][f], its 'type' when it has one *)
  es_search_fields : list string;         (* model.es.get_search_fields() *)
  es_ordering : option (list string);     (* model.Elasticsearch.ordering, when the class has it *)
  meta_ordering : option (list string);   (* model._meta.ordering *)
  es_deserialize : body -> instance       (* model.es.deserialize *)
}.

(** The response of [es_client.search], by the keys the code reads. *)
Record response := {
  hits : list body;                       (* r['hits']['hits'][i]['_source'] *)
  total_value : Z;                        (* r['hits']['total']['value'] *)
  max_score : pyval;                      (* r['hits']['max_score'] *)
  aggregations : option body;             (* r['aggregations'], when present *)
  suggest_payload : option body           (* r.get('suggest') *)
}.

Record backend := {
  es_search : dict body -> response;            (* es_client.search, applied to search_params *)
  es_count : string -> option body -> Z;        (* es_client.count(index=, body=)['count'] *)
  settings_fuzziness : option pyval             (* settings.ELASTICSEARCH_FUZZINESS, when set *)
}.

(** ** The query set object *)

Inductive mode_t := MODE_SEARCH | MODE_MLT.

Inductive row :=
| RawRow (src : body)
| ObjRow (o : instance).

Definition ref := nat.

(** The attributes of an [EsQueryset].  [ndx] is bound to [None] by
    [__init__] and never read or assigned again; it is left out. *)
Record cursor := {
  model : model_desc;
  index : string;
  mode : mode_t;
  mlt_kwargs : option (dict pyval);
  filters : ref;  (* reference to the dict in the store *)
  extra_body : option (dict body);
  facets_fields : option (list string);
  facets_limit : option Z;  (* bound by facet() only *)
  global_facets : option bool;  (* bound by facet() only *)
  suggest_fields : option (list string);
  suggest_limit : option Z;
  ordering : option (list string);
  fuzziness : pyval;
  _query : string;
  _deserialize : bool;
  _start : Z;
  _stop : option Z;
  _suggestions : option body;
  _facets : option body;
  _result_cache : list row;
  _total : option Z;
  _response : option response;  (* bound by do_search and get only *)
  _body : option body;  (* bound by do_search only *)
  _max_score : option pyval  (* bound by do_search only *)
}.

(** Attribute assignment, [self.x = v], one function per attribute the code assigns. *)
Definition set_mode (v : mode_t) (c : cursor) : cursor :=
  {| model := model c; index := index c; mode := v; mlt_kwargs := mlt_kwargs c;
     filters := filters c; extra_body := extra_body c; facets_fields := facets_fields c;
     facets_limit := facets_limit c; global_facets := global_facets c;
     suggest_fields := suggest_fields c; suggest_limit := suggest_limit c;
     ordering := ordering c; fuzziness := fuzziness c; _query := _query c;
     _deserialize := _deserialize c; _start := _start c; _stop := _stop c;
     _suggestions := _suggestions c; _facets := _facets c; _result_cache := _result_cache c;
     _total := _total c; _response := _response c; _body := _body c;
     _max_score := _max_score c |}.

Definition set_mlt_kwargs (v : option (dict pyval)) (c : cursor) : cursor :=
  {| model := model c; index := index c; mode := mode c; mlt_kwargs := v;
     filters := filters c; extra_body := extra_body c; facets_fields := facets_fields c;
     facets_limit := facets_limit c; global_facets := global_facets c;
     suggest_fields := suggest_fields c; suggest_limit := suggest_limit c;
     ordering := ordering c; fuzziness := fuzziness c; _query := _query c;
     _deserialize := _deserialize c; _start := _start c; _stop := _stop c;
     _suggestions := _suggestions c; _facets := _facets c; _result_cache := _result_cache c;
     _total := _total c; _response := _response c; _body := _body c;
     _max_score := _max_score c |}.

Definition set_filters (v : ref) (c : cursor) : cursor :=
  {| model := model c; index := index c; mode := mode c; mlt_kwargs := mlt_kwargs c;
     filters := v; extra_body := extra_body c; facets_fields := facets_fields c;
     facets_limit := facets_limit c; global_facets := global_facets c;
     suggest_fields := suggest_fields c; suggest_limit := suggest_limit c;
     ordering := ordering c; fuzziness := fuzziness c; _query := _query c;
     _deserialize := _deserialize c; _start := _start c; _stop := _stop c;
     _suggestions := _suggestions c; _facets := _facets c; _result_cache := _result_cache c;
     _total := _total c; _response := _response c; _body := _body c;
     _max_score := _max_score c |}.

Definition set_extra_body (v : option (dict body)) (c : cursor) : cursor :=
  {| model := model c; index := index c; mode := mode c; mlt_kwargs := mlt_kwargs c;
     filters := filters c; extra_body := v; facets_fields := facets_fields c;
     facets_limit := facets_limit c; global_facets := global_facets c;
     suggest_fields := suggest_fields c; suggest_limit := suggest_limit c;
     ordering := ordering c; fuzziness := fuzziness c; _query := _query c;
     _deserialize := _deserialize c; _start := _start c; _stop := _stop c;
     _suggestions := _suggestions c; _facets := _facets c; _result_cache := _result_cache c;
     _total := _total c; _response := _response c; _body := _body c;
     _max_score := _max_score c |}.

Definition set_facets_fields (v : option (list string)) (c : cursor) : cursor :=
  {| model := model c; index := index c; mode := mode c; mlt_kwargs := mlt_kwargs c;
     filters := filters c; extra_body := extra_body c; facets_fields := v;
     facets_limit := facets_limit c; global_facets := global_facets c;
     suggest_fields := suggest_fields c; suggest_limit := suggest_limit c;
     ordering := ordering c; fuzziness := fuzziness c; _query := _query c;
     _deserialize := _deserialize c; _start := _start c; _stop := _stop c;
     _suggestions := _suggestions c; _facets := _facets c; _result_cache := _result_cache c;
     _total := _total c; _response := _response c; _body := _body c;
     _max_score := _max_score c |}.

Definition set_facets_limit (v : option Z) (c : cursor) : cursor :=
  {| model := model c; index := index c; mode := mode c; mlt_kwargs := mlt_kwargs c;
     filters := filters c; extra_body := extra_body c; facets_fields := facets_fields c;
     facets_limit := v; global_facets := global_facets c; suggest_fields := suggest_fields c;
     suggest_limit := suggest_limit c; ordering := ordering c; fuzziness := fuzziness c;
     _query := _query c; _deserialize := _deserialize c; _start := _start c;
     _stop := _stop c; _suggestions := _suggestions c; _facets := _facets c;
     _result_cache := _result_cache c; _total := _total c; _response := _response c;
     _body := _body c; _max_score := _max_score c |}.

Definition set_global_facets (v : option bool) (c : cursor) : cursor :=
  {| model := model c; index := index c; mode := mode c; mlt_kwargs := mlt_kwargs c;
     filters := filters c; extra_body := extra_body c; facets_fields := facets_fields c;
     facets_limit := facets_limit c; global_facets := v; suggest_fields := suggest_fields c;
     suggest_limit := suggest_limit c; ordering := ordering c; fuzziness := fuzziness c;
     _query := _query c; _deserialize := _deserialize c; _start := _start c;
     _stop := _stop c; _suggestions := _suggestions c; _facets := _facets c;
     _result_cache := _result_cache c; _total := _total c; _response := _response c;
     _body := _body c; _max_score := _max_score c |}.

Definition set_suggest_fields (v : option (list string)) (c : cursor) : cursor :=
  {| model := model c; index := index c; mode := mode c; mlt_kwargs := mlt_kwargs c;
     filters := filters c; extra_body := extra_body c; facets_fields := facets_fields c;
     facets_limit := facets_limit c; global_facets := global_facets c; suggest_fields := v;
     suggest_limit := suggest_limit c; ordering := ordering c; fuzziness := fuzziness c;
     _query := _query c; _deserialize := _deserialize c; _start := _start c;
     _stop := _stop c; _suggestions := _suggestions c; _facets := _facets c;
     _result_cache := _result_cache c; _total := _total c; _response := _response c;
     _body := _body c; _max_score := _max_score c |}.

Definition set_suggest_limit (v : option Z) (c : cursor) : cursor :=
  {| model := model c; index := index c; mode := mode c; mlt_kwargs := mlt_kwargs c;
     filters := filters c; extra_body := extra_body c; facets_fields := facets_fields c;
     facets_limit := facets_limit c; global_facets := global_facets c;
     suggest_fields := suggest_fields c; suggest_limit := v; ordering := ordering c;
     fuzziness := fuzziness c; _query := _query c; _deserialize := _deserialize c;
     _start := _start c; _stop := _stop c; _suggestions := _suggestions c;
     _facets := _facets c; _result_cache := _result_cache c; _total := _total c;
     _response := _response c; _body := _body c; _max_score := _max_score c |}.

Definition set_ordering (v : option (list string)) (c : cursor) : cursor :=
  {| model := model c; index := index c; mode := mode c; mlt_kwargs := mlt_kwargs c;
     filters := filters c; extra_body := extra_body c; facets_fields := facets_fields c;
     facets_limit := facets_limit c; global_facets := global_facets c;
     suggest_fields := suggest_fields c; suggest_limit := suggest_limit c; ordering := v;
     fuzziness := fuzziness c; _query := _query c; _deserialize := _deserialize c;
     _start := _start c; _stop := _stop c; _suggestions := _suggestions c;
     _facets := _facets c; _result_cache := _result_cache c; _total := _total c;
     _response := _response c; _body := _body c; _max_score := _max_score c |}.

Definition set_fuzziness (v : pyval) (c : cursor) : cursor :=
  {| model := model c; index := index c; mode := mode c; mlt_kwargs := mlt_kwargs c;
     filters := filters c; extra_body := extra_body c; facets_fields := facets_fields c;
     facets_limit := facets_limit c; global_facets := global_facets c;
     suggest_fields := suggest_fields c; suggest_limit := suggest_limit c;
     ordering := ordering c; fuzziness := v; _query := _query c;
     _deserialize := _deserialize c; _start := _start c; _stop := _stop c;
     _suggestions := _suggestions c; _facets := _facets c; _result_cache := _result_cache c;
     _total := _total c; _response := _response c; _body := _body c;
     _max_score := _max_score c |}.

Definition set_query (v : string) (c : cursor) : cursor :=
  {| model := model c; index := index c; mode := mode c; mlt_kwargs := mlt_kwargs c;
     filters := filters c; extra_body := extra_body c; facets_fields := facets_fields c;
     facets_limit := facets_limit c; global_facets := global_facets c;
     suggest_fields := suggest_fields c; suggest_limit := suggest_limit c;
     ordering := ordering c; fuzziness := fuzziness c; _query := v;
     _deserialize := _deserialize c; _start := _start c; _stop := _stop c;
     _suggestions := _suggestions c; _facets := _facets c; _result_cache := _result_cache c;
     _total := _total c; _response := _response c; _body := _body c;
     _max_score := _max_score c |}.

Definition set_deserialize (v : bool) (c : cursor) : cursor :=
  {| model := model c; index := index c; mode := mode c; mlt_kwargs := mlt_kwargs c;
     filters := filters c; extra_body := extra_body c; facets_fields := facets_fields c;
     facets_limit := facets_limit c; global_facets := global_facets c;
     suggest_fields := suggest_fields c; suggest_limit := suggest_limit c;
     ordering := ordering c; fuzziness := fuzziness c; _query := _query c; _deserialize := v;
     _start := _start c; _stop := _stop c; _suggestions := _suggestions c;
     _facets := _facets c; _result_cache := _result_cache c; _total := _total c;
     _response := _response c; _body := _body c; _max_score := _max_score c |}.

Definition set_start (v : Z) (c : cursor) : cursor :=
  {| model := model c; index := index c; mode := mode c; mlt_kwargs := mlt_kwargs c;
     filters := filters c; extra_body := extra_body c; facets_fields := facets_fields c;
     facets_limit := facets_limit c; global_facets := global_facets c;
     suggest_fields := suggest_fields c; suggest_limit := suggest_limit c;
     ordering := ordering c; fuzziness := fuzziness c; _query := _query c;
     _deserialize := _deserialize c; _start := v; _stop := _stop c;
     _suggestions := _suggestions c; _facets := _facets c; _result_cache := _result_cache c;
     _total := _total c; _response := _response c; _body := _body c;
     _max_score := _max_score c |}.

Definition set_stop (v : option Z) (c : cursor) : cursor :=
  {| model := model c; index := index c; mode := mode c; mlt_kwargs := mlt_kwargs c;
     filters := filters c; extra_body := extra_body c; facets_fields := facets_fields c;
     facets_limit := facets_limit c; global_facets := global_facets c;
     suggest_fields := suggest_fields c; suggest_limit := suggest_limit c;
     ordering := ordering c; fuzziness := fuzziness c; _query := _query c;
     _deserialize := _deserialize c; _start := _start c; _stop := v;
     _suggestions := _suggestions c; _facets := _facets c; _result_cache := _result_cache c;
     _total := _total c; _response := _response c; _body := _body c;
     _max_score := _max_score c |}.

Definition set_suggestions (v : option body) (c : cursor) : cursor :=
  {| model := model c; index := index c; mode := mode c; mlt_kwargs := mlt_kwargs c;
     filters := filters c; extra_body := extra_body c; facets_fields := facets_fields c;
     facets_limit := facets_limit c; global_facets := global_facets c;
     suggest_fields := suggest_fields c; suggest_limit := suggest_limit c;
     ordering := ordering c; fuzziness := fuzziness c; _query := _query c;
     _deserialize := _deserialize c; _start := _start c; _stop := _stop c; _suggestions := v;
     _facets := _facets c; _result_cache := _result_cache c; _total := _total c;
     _response := _response c; _body := _body c; _max_score := _max_score c |}.

Definition set_facets (v : option body) (c : cursor) : cursor :=
  {| model := model c; index := index c; mode := mode c; mlt_kwargs := mlt_kwargs c;
     filters := filters c; extra_body := extra_body c; facets_fields := facets_fields c;
     facets_limit := facets_limit c; global_facets := global_facets c;
     suggest_fields := suggest_fields c; suggest_limit := suggest_limit c;
     ordering := ordering c; fuzziness := fuzziness c; _query := _query c;
     _deserialize := _deserialize c; _start := _start c; _stop := _stop c;
     _suggestions := _suggestions c; _facets := v; _result_cache := _result_cache c;
     _total := _total c; _response := _response c; _body := _body c;
     _max_score := _max_score c |}.

Definition set_result_cache (v : list row) (c : cursor) : cursor :=
  {| model := model c; index := index c; mode := mode c; mlt_kwargs := mlt_kwargs c;
     filters := filters c; extra_body := extra_body c; facets_fields := facets_fields c;
     facets_limit := facets_limit c; global_facets := global_facets c;
     suggest_fields := suggest_fields c; suggest_limit := suggest_limit c;
     ordering := ordering c; fuzziness := fuzziness c; _query := _query c;
     _deserialize := _deserialize c; _start := _start c; _stop := _stop c;
     _suggestions := _suggestions c; _facets := _facets c; _result_cache := v;
     _total := _total c; _response := _response c; _body := _body c;
     _max_score := _max_score c |}.

Definition set_total (v : option Z) (c : cursor) : cursor :=
  {| model := model c; index := index c; mode := mode c; mlt_kwargs := mlt_kwargs c;
     filters := filters c; extra_body := extra_body c; facets_fields := facets_fields c;
     facets_limit := facets_limit c; global_facets := global_facets c;
     suggest_fields := suggest_fields c; suggest_limit := suggest_limit c;
     ordering := ordering c; fuzziness := fuzziness c; _query := _query c;
     _deserialize := _deserialize c; _start := _start c; _stop := _stop c;
     _suggestions := _suggestions c; _facets := _facets c; _result_cache := _result_cache c;
     _total := v; _response := _response c; _body := _body c; _max_score := _max_score c |}.

Definition set_response (v : option response) (c : cursor) : cursor :=
  {| model := model c; index := index c; mode := mode c; mlt_kwargs := mlt_kwargs c;
     filters := filters c; extra_body := extra_body c; facets_fields := facets_fields c;
     facets_limit := facets_limit c; global_facets := global_facets c;
     suggest_fields := suggest_fields c; suggest_limit := suggest_limit c;
     ordering := ordering c; fuzziness := fuzziness c; _query := _query c;
     _deserialize := _deserialize c; _start := _start c; _stop := _stop c;
     _suggestions := _suggestions c; _facets := _facets c; _result_cache := _result_cache c;
     _total := _total c; _response := v; _body := _body c; _max_score := _max_score c |}.

Definition set_body (v : option body) (c : cursor) : cursor :=
  {| model := model c; index := index c; mode := mode c; mlt_kwargs := mlt_kwargs c;
     filters := filters c; extra_body := extra_body c; facets_fields := facets_fields c;
     facets_limit := facets_limit c; global_facets := global_facets c;
     suggest_fields := suggest_fields c; suggest_limit := suggest_limit c;
     ordering := ordering c; fuzziness := fuzziness c; _query := _query c;
     _deserialize := _deserialize c; _start := _start c; _stop := _stop c;
     _suggestions := _suggestions c; _facets := _facets c; _result_cache := _result_cache c;
     _total := _total c; _response := _response c; _body := v; _max_score := _max_score c |}.

Definition set_max_score (v : option pyval) (c : cursor) : cursor :=
  {| model := model c; index := index c; mode := mode c; mlt_kwargs := mlt_kwargs c;
     filters := filters c; extra_body := extra_body c; facets_fields := facets_fields c;
     facets_limit := facets_limit c; global_facets := global_facets c;
     suggest_fields := suggest_fields c; suggest_limit := suggest_limit c;
     ordering := ordering c; fuzziness := fuzziness c; _query := _query c;
     _deserialize := _deserialize c; _start := _start c; _stop := _stop c;
     _suggestions := _suggestions c; _facets := _facets c; _result_cache := _result_cache c;
     _total := _total c; _response := _response c; _body := _body c; _max_score := v |}.

(** ** The store, the call log and the monad of methods *)

Record world := {
  cursors : list cursor;                     (* the query set objects, by reference *)
  dicts : list (dict pyval);                 (* the filters dictionaries, by reference *)
  search_log : list (dict body);             (* the calls of es_client.search, oldest first *)
  count_log : list (string * option body)    (* the calls of es_client.count, oldest first *)
}.

Definition with_cursors (cs : list cursor) (w : world) : world :=
  {| cursors := cs; dicts := dicts w; search_log := search_log w; count_log := count_log w |}.

Definition with_dicts (ds : list (dict pyval)) (w : world) : world :=
  {| cursors := cursors w; dicts := ds; search_log := search_log w; count_log := count_log w |}.

Definition with_search_log (l : list (dict body)) (w : world) : world :=
  {| cursors := cursors w; dicts := dicts w; search_log := l; count_log := count_log w |}.

Definition with_count_log (l : list (string * option body)) (w : world) : world :=
  {| cursors := cursors w; dicts := dicts w; search_log := search_log w; count_log := l |}.

(** A method either returns or raises, and leaves a world behind in both
    cases: what was assigned before an exception stays assigned. *)
Definition M (A : Type) : Type := world -> (exn + A) * world.

Definition ret {A} (a : A) : M A := fun w => (inr a, w).

Definition raise {A} (e : exn) : M A := fun w => (inl e, w).

Definition bind {A B} (m : M A) (k : A -> M B) : M B :=
  fun w =>
    match m w with
    | (inr a, w') => k a w'
    | (inl e, w') => (inl e, w')
    end.

Definition lift {A} (r : exn + A) : M A :=
  match r with
  | inr a => ret a
  | inl e => raise e
  end.

(** The same sequencing for computations that only can raise. *)
Definition bind_exn {A B} (r : exn + A) (k : A -> exn + B) : exn + B :=
  match r with
  | inr a => k a
  | inl e => inl e
  end.

Declare Scope method_scope.
Delimit Scope method_scope with method.
Notation "x <~ m ;; k" := (bind m (fun x => k))
  (at level 20, m at level 99, k at level 200, only parsing) : method_scope.
Notation "m ;;; k" := (bind m (fun _ => k))
  (at level 100, k at level 200, only parsing, right associativity) : method_scope.
Notation "x <~? r ;; k" := (bind_exn r (fun x => k))
  (at level 20, r at level 99, k at level 200, only parsing).

Definition get_cursor (a : ref) : M cursor :=
  fun w =>
    match cursors w !! a with
    | Some c => (inr c, w)
    | None => (inl InvalidReference, w)
    end.

(** Assign attributes of the object at [a]: the object is replaced by [f] of it. *)
Definition modify_cursor (a : ref) (f : cursor -> cursor) : M unit :=
  fun w =>
    match cursors w !! a with
    | Some c => (inr tt, with_cursors (<[a := f c]> (cursors w)) w)
    | None => (inl InvalidReference, w)
    end.

Definition alloc_cursor (c : cursor) : M ref :=
  fun w => (inr (length (cursors w)), with_cursors (cursors w ++ [c]) w).

Definition get_dict (a : ref) : M (dict pyval) :=
  fun w =>
    match dicts w !! a with
    | Some d => (inr d, w)
    | None => (inl InvalidReference, w)
    end.

Definition modify_dict (a : ref) (f : dict pyval -> dict pyval) : M unit :=
  fun w =>
    match dicts w !! a with
    | Some d => (inr tt, with_dicts (<[a := f d]> (dicts w)) w)
    | None => (inl InvalidReference, w)
    end.

Definition alloc_dict (d : dict pyval) : M ref :=
  fun w => (inr (length (dicts w)), with_dicts (dicts w ++ [d]) w).

(** ** The methods of [EsQueryset] *)

Module EsQueryset.
Section Methods.

(** The search client and the settings the module is run against. *)
Context (es : backend).

(** [django_elasticsearch.utils.nested_update(d, u)], which merges the
    fragment [u] into the accumulated boolean body [d].  Its source is not
    part of [query.py]; the methods take it as a parameter. *)
Context (nested_update : dict body -> dict body -> dict body).

Local Open Scope method_scope.

(** *** Construction and cloning *)

Definition default_fuzziness : pyval := PFloat (1 # 2).

(** The attributes bound by [__init__(self, model, fuzziness)], given the
    fresh dictionary [flt] bound to [self.filters]. *)
Definition initial (m : model_desc) (fuzz : pyval) (flt : ref) : cursor :=
  {| model := m;
     index := es_index m;
     mode := MODE_SEARCH;
     mlt_kwargs := None;
     filters := flt;
     extra_body := None;
     facets_fields := None;
     facets_limit := None;
     global_facets := None;
     suggest_fields := None;
     suggest_limit := None;
     ordering := match es_ordering m with
                 | Some o => Some o
                 | None => meta_ordering m
                 end;
     fuzziness := match fuzz with
                  | PNone => match settings_fuzziness es with
                             | Some v => v
                             | None => default_fuzziness
                             end
                  | _ => fuzz
                  end;
     _query := "";
     _deserialize := false;
     _start := 0;
     _stop := None;
     _suggestions := None;
     _facets := None;
     _result_cache := [];
     _total := None;
     _response := None;
     _body := None;
     _max_score := None |}.

Definition __init__ (m : model_desc) (fuzz : pyval) : M ref :=
  flt <~ alloc_dict [] ;;
  alloc_cursor (initial m fuzz flt).

(** The loop of [__deepcopy__]: every attribute of [c] is copied to the
    new object [o] except the four result attributes; [d] is the deep copy
    of the filters dictionary.  The other attribute values are immutable
    here, so their deep copy is the value itself. *)
Definition copy_attributes (c : cursor) (d : ref) (o : cursor) : cursor :=
  {| model := model c;
     index := index c;
     mode := mode c;
     mlt_kwargs := mlt_kwargs c;
     filters := d;
     extra_body := extra_body c;
     facets_fields := facets_fields c;
     facets_limit := facets_limit c;
     global_facets := global_facets c;
     suggest_fields := suggest_fields c;
     suggest_limit := suggest_limit c;
     ordering := ordering c;
     fuzziness := fuzziness c;
     _query := _query c;
     _deserialize := _deserialize c;
     _start := _start c;
     _stop := _stop c;
     _suggestions := _suggestions o;
     _facets := _facets o;
     _result_cache := _result_cache o;
     _total := _total o;
     _response := _response c;
     _body := _body c;
     _max_score := _max_score c |}.

Definition __deepcopy__ (self : ref) : M ref :=
  c <~ get_cursor self ;;
  obj <~ __init__ (model c) PNone ;;
  flt <~ get_dict (filters c) ;;
  d <~ alloc_dict flt ;;
  modify_cursor obj (copy_attributes c d) ;;;
  ret obj.

Definition _clone (self : ref) : M ref :=
  clone <~ __deepcopy__ self ;;
  modify_cursor clone (set_result_cache []) ;;;
  modify_cursor clone (set_total None) ;;;
  ret clone.

(** *** The query compiler *)

(** [field_ in mapping and mapping[field_]['type'] == ty] *)
Definition mapping_type_is (mapping : dict (option string)) (field_ ty : string) : exn + bool :=
  match dict_get field_ mapping with
  | None => inr false
  | Some None => inl KeyError
  | Some (Some t) => inr (String.eqb t ty)
  end.

Definition is_model (v : pyval) : bool :=
  match v with PModel _ => true | _ => false end.

(** [{bucket: [{kind: inner}]}] *)
Definition clause (bucket kind : string) (inner : body) : dict body :=
  [(bucket, BList [BDict [(kind, inner)]])].

(** The body of the loop of [make_search_body] up to the merge: the
    fragment [filtr] built for one entry of [self.filters]. *)
Definition filter_clause (mapping : dict (option string)) (lookup : string) (value : pyval)
  : exn + dict body :=
  let '(field, operator) := sanitize_lookup lookup in
  let field_ := before_dot field in
  is_nested <~? mapping_type_is mapping field_ "nested" ;;
  let '(field_name, value) :=
    match value with
    | PModel pk => if is_nested then (field +:+ ".id", PInt pk) else (field, value)
    | _ => (field, value)
    end in
  let value := match value with PDatetime iso => PStr iso | _ => value end in
  filtr <~?
    (if str_in operator ["must"; "must_not"; "should"] then
       is_text <~? mapping_type_is mapping field_ "text" ;;
       let mode := if is_text then "match" else "term" in
       inr (clause operator mode (BDict [(field_name, BVal value)]))
     else if str_in operator ["gt"; "gte"; "lt"; "lte"] then
       inr (clause "must" "range" (BDict [(field_name, BDict [(operator, BVal value)])]))
     else if String.eqb operator "range" then
       lo <~? subscript value 0 ;;
       hi <~? subscript value 1 ;;
       inr (clause "must" "range"
              (BDict [(field_name, BDict [("gte", BVal lo); ("lte", BVal hi)])]))
     else if String.eqb operator "isnull" then
       if truthy value
       then inr (clause "must_not" "exists" (BDict [("field", BStr field_name)]))
       else inr (clause "must" "exists" (BDict [("field", BStr field_name)]))
     else if String.eqb operator "exists" then
       if truthy value
       then inr (clause "must" "exists" (BDict [("field", BStr field_name)]))
       else inr (clause "must_not" "exists" (BDict [("field", BStr field_name)]))
     else inl ValueError) ;;
  inr (if is_nested
       then clause "must" "nested"
              (BDict [("path", BStr (before_dot field)); ("query", BDict [("bool", BDict filtr)])])
       else filtr).

(** The clause the compiled body starts from. *)
Definition seed (c : cursor) (flt : dict pyval) : dict body :=
  if negb (String.eqb (_query c) "") then
    clause "must" "multi_match"
      (BDict [("query", BStr (_query c));
              ("fields", BList (map BStr (es_search_fields (model c))));
              ("fuzziness", match fuzziness c with
                            | PNone => BStr "AUTO"
                            | f => BVal f
                            end)])
  else
    match flt with
    | [] => clause "must" "match_all" (BDict [])
    | _ => []
    end.

(** The loop over [self.filters.items()]. *)
Fixpoint merge_filters (mapping : dict (option string)) (search : dict body)
  (items : list (string * pyval)) : exn + dict body :=
  match items with
  | [] => inr search
  | (lookup, value) :: rest =>
      filtr <~? filter_clause mapping lookup value ;;
      merge_filters mapping (nested_update search filtr) rest
  end.

(** [make_search_body], on the attributes [c] and the filters dictionary
    [flt] that [c] refers to.  The log line is left out. *)
Definition make_search_body (c : cursor) (flt : dict pyval) : exn + body :=
  search <~? merge_filters (es_mapping (model c)) (seed c flt) flt ;;
  inr (BDict [("query", BDict [("bool", BDict search)])]).

(** *** The executor *)

(** The property [is_evaluated]. *)
Definition is_evaluated (c : cursor) : bool :=
  Nat.ltb 0 (length (_result_cache c)).

(** [bool(x)] for an optional integer and an optional sequence or mapping. *)
Definition truthy_int (x : option Z) : bool :=
  match x with
  | Some n => negb (n =? 0)
  | None => false
  end.

Definition truthy_seq {A} (x : option (list A)) : bool :=
  match x with
  | Some (_ :: _) => true
  | _ => false
  end.

Definition opt_list {A} (x : option (list A)) : list A :=
  match x with
  | Some l => l
  | None => []
  end.

Definition terms_agg (field : string) (size : list (string * body)) : body :=
  BDict [("terms", BDict (("field", BStr field) :: size))].

(** The aggregations: one entry per field, and the limit on the entry of
    the field the loop ended with. *)
Definition make_aggs (fields : list string) (limit : option Z) : dict body :=
  let aggs := fold_left (fun aggs field => dict_set field (terms_agg field []) aggs) fields [] in
  match limit with
  | Some n =>
      if negb (n =? 0)
      then let field := List.last fields "" in
           dict_set field (terms_agg field [("size", BInt n)]) aggs
      else aggs
  | None => aggs
  end.

Definition make_suggest (query : string) (fields : list string) (limit : option Z) : dict body :=
  fold_left
    (fun suggest field_name =>
       dict_set field_name
         (BDict [("text", BStr query);
                 ("term", BDict (("field", BStr field_name) ::
                                 match limit with
                                 | Some n => if negb (n =? 0) then [("size", BInt n)] else []
                                 | None => []
                                 end))])
         suggest)
    fields [].

(** [{f: "asc"} if f[0] != '-' else {f[1:]: "desc"}] *)
Definition sort_entry (f : string) : exn + body :=
  match f with
  | EmptyString => inl IndexError
  | String c rest =>
      if Ascii.eqb c "-"%char
      then inr (BDict [(rest, BStr "desc")])
      else inr (BDict [(f, BStr "asc")])
  end.

Fixpoint sort_entries (fs : list string) : exn + list body :=
  match fs with
  | [] => inr []
  | f :: rest =>
      e <~? sort_entry f ;;
      es' <~? sort_entries rest ;;
      inr (e :: es')
  end.

Definition mlt_get (kw : dict pyval) (k : string) (default : pyval) : body :=
  match dict_get k kw with
  | Some v => BVal v
  | None => BVal default
  end.

(** The part of [do_search] before the call of the client: the keyword
    arguments [search_params] and the [body] bound to [self._body]. *)
Definition build_search_request (c : cursor) (flt : dict pyval) : exn + (dict body * dict body) :=
  compiled <~? make_search_body c flt ;;
  let body0 := match compiled with BDict d => d | _ => [] end in
  let body1 :=
    if truthy_seq (facets_fields c)
    then dict_set "aggs" (BDict (make_aggs (opt_list (facets_fields c)) (facets_limit c))) body0
    else body0 in
  let body2 :=
    if truthy_seq (suggest_fields c)
    then dict_set "suggest"
           (BDict (make_suggest (_query c) (opt_list (suggest_fields c)) (suggest_limit c))) body1
    else body1 in
  body3 <~?
    (if truthy_seq (ordering c)
     then sorts <~? sort_entries (opt_list (ordering c)) ;;
          inr (dict_set "sort" (BList (sorts ++ [BStr "_score"])) body2)
     else inr body2) ;;
  let params0 := [("index", BList [BStr (index c)])] in
  let params1 :=
    if negb (_start c =? 0) then dict_set "from" (BInt (_start c)) params0 else params0 in
  let params2 :=
    if truthy_int (_stop c)
    then dict_set "size" (BInt (match _stop c with Some s => s | None => 0 end - _start c)) params1
    else params1 in
  let body4 :=
    if truthy_seq (extra_body c) then dict_update body3 (opt_list (extra_body c)) else body3 in
  let params3 := dict_set "body" (BDict body4) params2 in
  match mode c with
  | MODE_MLT =>
      match mlt_kwargs c with
      | None => inl AttributeError
      | Some kw =>
          inr (dict_set "more_like_this"
                 (BDict [("fields", mlt_get kw "fields" (PStr "_all"));
                         ("like", BList [BDict [("_id", mlt_get kw "id" PNone)]]);
                         ("min_term_frequency", mlt_get kw "min_term_frequency" (PInt 1));
                         ("max_term_frequency", mlt_get kw "max_term_frequency" (PInt 10))])
                 params3,
               body4)
      end
  | MODE_SEARCH =>
      match dict_get "from" params3 with
      | Some v => inr (dict_set "from_" v (dict_del "from" params3), body4)
      | None => inr (params3, body4)
      end
  end.

(** [es_client.search], applied to the keyword arguments: the call is logged. *)
Definition call_search (params : dict body) : M response :=
  fun w => (inr (es_search es params), with_search_log (search_log w ++ [params]) w).

Definition call_count (idx : string) (b : option body) : M Z :=
  fun w => (inr (es_count es idx b), with_count_log (count_log w ++ [(idx, b)]) w).

Definition rows_of (c : cursor) (r : response) : list row :=
  if _deserialize c
  then map (fun src => ObjRow (es_deserialize (model c) src)) (hits r)
  else map RawRow (hits r).

Definition do_search (self : ref) : M unit :=
  c <~ get_cursor self ;;
  if is_evaluated c then ret tt else
  flt <~ get_dict (filters c) ;;
  req <~ lift (build_search_request c flt) ;;
  modify_cursor self (set_body (Some (BDict (snd req)))) ;;;
  r <~ call_search (fst req) ;;
  modify_cursor self (set_response (Some r)) ;;;
  (if truthy_seq (facets_fields c)
   then match aggregations r with
        | Some a => modify_cursor self (set_facets (Some a))
        | None => raise KeyError
        end
   else ret tt) ;;;
  modify_cursor self (set_suggestions (suggest_payload r)) ;;;
  modify_cursor self (set_result_cache (rows_of c r)) ;;;
  modify_cursor self (set_max_score (Some (max_score r))) ;;;
  modify_cursor self (set_total (Some (total_value r))).

(** *** Terminal operations *)

(** [__iter__], consumed to the end (as [list(qs)] does): the rows it yields. *)
Definition __iter__ (self : ref) : M (list row) :=
  do_search self ;;;
  c <~ get_cursor self ;;
  ret (_result_cache c).

(** The argument of [qs[ndx]]: an [int] or a [slice] (its step is not read). *)
Inductive subscript_arg :=
| Int (n : Z)
| Slice (start stop : option Z).

Inductive item :=
| Row (r : row)
| Rows (l : list row).

Definition __getitem__ (self : ref) (ndx : subscript_arg) : M item :=
  modify_cursor self (set_result_cache []) ;;;
  match ndx with
  | Slice start stop =>
      modify_cursor self (set_start (match start with
                                     | Some n => if n =? 0 then 0 else n
                                     | None => 0
                                     end)) ;;;
      modify_cursor self (set_stop stop)
  | Int n =>
      modify_cursor self (set_start n) ;;;
      modify_cursor self (set_stop (Some (n + 1)))
  end ;;;
  do_search self ;;;
  c <~ get_cursor self ;;
  match ndx with
  | Slice _ _ => ret (Rows (_result_cache c))
  | Int _ =>
      match _result_cache c with
      | r :: _ => ret (Row r)
      | [] => raise IndexError
      end
  end.

(** [e.id if self._deserialize else e["id"]] *)
Definition row_id (deserialized : bool) (e : row) : exn + body :=
  if deserialized then
    match e with
    | ObjRow o => inr (BInt (inst_id o))
    | RawRow _ => inl AttributeError
    end
  else
    match e with
    | RawRow (BDict d) =>
        match dict_get "id" d with
        | Some v => inr v
        | None => inl KeyError
        end
    | _ => inl TypeError
    end.

Fixpoint row_ids (deserialized : bool) (rows : list row) : exn + list body :=
  match rows with
  | [] => inr []
  | e :: rest =>
      i <~? row_id deserialized e ;;
      is' <~? row_ids deserialized rest ;;
      inr (i :: is')
  end.

(** [n == x] for an integer [n] *)
Definition int_eq (n : Z) (x : body) : bool :=
  match x with
  | BVal (PInt m) => n =? m
  | BVal (PBool b) => n =? (if b then 1 else 0)
  | BVal (PFloat q) => Qeq_bool (inject_Z n) q
  | _ => false
  end.

Definition __contains__ (self : ref) (inst : instance) : M bool :=
  do_search self ;;;
  c <~ get_cursor self ;;
  ids <~ lift (row_ids (_deserialize c) (_result_cache c)) ;;
  ret (existsb (int_eq (inst_id inst)) ids).

Definition __len__ (self : ref) : M nat :=
  do_search self ;;;
  c <~ get_cursor self ;;
  ret (length (_result_cache c)).

(** [body or None] *)
Definition body_or_none (b : body) : option body :=
  match b with
  | BDict [] => None
  | _ => Some b
  end.

Definition count (self : ref) : M (option Z) :=
  c <~ get_cursor self ;;
  if truthy_int (_total c) then ret (_total c) else
  match mode c with
  | MODE_MLT =>
      do_search self ;;;
      c' <~ get_cursor self ;;
      ret (_total c')
  | MODE_SEARCH =>
      flt <~ get_dict (filters c) ;;
      b <~ lift (make_search_body c flt) ;;
      n <~ call_count (index c) (body_or_none b) ;;
      modify_cursor self (set_total (Some n)) ;;;
      ret (Some n)
  end.

(** *** Chaining methods *)

Definition filter (self : ref) (kwargs : dict pyval) : M ref :=
  clone <~ _clone self ;;
  c <~ get_cursor clone ;;
  modify_dict (filters c) (fun d => dict_update d kwargs) ;;;
  ret clone.

Definition search (self : ref) (args : list string) (kwargs : dict pyval) : M ref :=
  match args, kwargs with
  | [], [] => raise TypeError
  | _ :: _ :: _, _ => raise TypeError
  | _, _ =>
      clone <~ _clone self ;;
      match args with
      | q :: _ => modify_cursor clone (set_query q)
      | [] => ret tt
      end ;;;
      match kwargs with
      | _ :: _ =>
          c <~ get_cursor clone ;;
          modify_dict (filters c) (fun d => dict_update d kwargs)
      | [] => ret tt
      end ;;;
      ret clone
  end.

Definition facet (self : ref) (fields : list string) (limit : option Z) (use_globals : bool)
  : M ref :=
  clone <~ _clone self ;;
  modify_cursor clone (set_facets_fields (Some fields)) ;;;
  modify_cursor clone (set_facets_limit limit) ;;;
  modify_cursor clone (set_global_facets (Some use_globals)) ;;;
  ret clone.

Definition suggest (self : ref) (fields : list string) (limit : option Z) : M ref :=
  clone <~ _clone self ;;
  modify_cursor clone (set_suggest_fields (Some fields)) ;;;
  modify_cursor clone (set_suggest_limit limit) ;;;
  ret clone.

Definition order_by (self : ref) (fields : list string) : M ref :=
  clone <~ _clone self ;;
  modify_cursor clone (set_ordering (Some fields)) ;;;
  ret clone.

Definition extra (self : ref) (b : dict body) : M ref :=
  clone <~ _clone self ;;
  modify_cursor clone (set_extra_body (Some b)) ;;;
  ret clone.

Definition all (self : ref) : M ref := _clone self.

Definition inverse_map : dict string :=
  [("gt", "lte"); ("gte", "lt"); ("lt", "gte"); ("lte", "gt")].

(** One turn of the loop of [exclude]: the entry written to the local
    dictionary [filters] for [lookup=value]. *)
Definition exclude_entry (filters : dict pyval) (lookup : string) (value : pyval)
  : exn + dict pyval :=
  let '(field, operator) := sanitize_lookup lookup in
  if String.eqb operator "must" then
    inr (dict_set (field +:+ "__must_not") value filters)
  else if String.eqb operator "must_not" then
    inr (dict_set field value filters)
  else if String.eqb operator "should" then
    inr (dict_set (field +:+ "__must_not") value filters)
  else if str_in operator ["gt"; "gte"; "lt"; "lte"] then
    match dict_get operator inverse_map with
    | Some inverse => inr (dict_set (field +:+ "__" +:+ inverse) value filters)
    | None => inl KeyError
    end
  else if String.eqb operator "exists" then
    inr (dict_set lookup (PBool (negb (truthy value))) filters)
  else if String.eqb operator "isnull" then
    inr (dict_set lookup (PBool (negb (truthy value))) filters)
  else if String.eqb operator "range" then
    hi <~? subscript value 1 ;;
    lo <~? subscript value 0 ;;
    inr (dict_set lookup (PTuple [hi; lo]) filters)
  else inl NotImplementedError.

Fixpoint exclude_filters (filters : dict pyval) (kwargs : list (string * pyval))
  : exn + dict pyval :=
  match kwargs with
  | [] => inr filters
  | (lookup, value) :: rest =>
      filters' <~? exclude_entry filters lookup value ;;
      exclude_filters filters' rest
  end.

Definition exclude (self : ref) (kwargs : dict pyval) : M ref :=
  clone <~ _clone self ;;
  filters' <~ lift (exclude_filters [] kwargs) ;;
  c <~ get_cursor clone ;;
  modify_dict (filters c) (fun d => dict_update d filters') ;;;
  ret clone.

Definition mlt (self : ref) (id : pyval) (kwargs : dict pyval) : M ref :=
  modify_cursor self (set_mode MODE_MLT) ;;;
  modify_cursor self (set_mlt_kwargs (Some (dict_set "id" id kwargs))) ;;;
  ret self.

Definition deserialize (self : ref) : M ref :=
  modify_cursor self (set_deserialize true) ;;;
  ret self.

(** *** Read-only properties and the remaining methods *)

(** The properties [response], [facets] and [suggestions]. *)
Definition response_of (self : ref) : M response :=
  do_search self ;;;
  c <~ get_cursor self ;;
  match _response c with
  | Some r => ret r
  | None => raise AttributeError
  end.

Definition facets (self : ref) : M (option body) :=
  do_search self ;;;
  c <~ get_cursor self ;;
  ret (_facets c).

Definition suggestions (self : ref) : M (option body) :=
  do_search self ;;;
  c <~ get_cursor self ;;
  ret (_suggestions c).

(** [django.db.models.query.REPR_OUTPUT_SIZE] *)
Context (REPR_OUTPUT_SIZE : Z).



(** [b[k]] for a string key, [b[0]], and the elements [for r in b] visits,
    on a value of the response. *)
Definition body_key (b : body) (k : string) : exn + body :=
  match b with
  | BDict d =>
      match dict_get k d with
      | Some v => inr v
      | None => inl KeyError
      end
  | _ => inl TypeError
  end.

Definition body_first (b : body) : exn + body :=
  match b with
  | BList (x :: _) => inr x
  | BList [] => inl IndexError
  | BDict _ => inl KeyError
  | BVal v =>
      match subscript v 0 with
      | inr x => inr (BVal x)
      | inl e => inl e
      end
  end.

Fixpoint option_texts (options : list body) : exn + list body :=
  match options with
  | [] => inr []
  | r :: rest =>
      t <~? body_key r "text" ;;
      ts <~? option_texts rest ;;
      inr (t :: ts)
  end.

(** [[r['text'] for r in resp['suggest'][field_name][0]['options']]] *)
Definition completion_texts (resp : response) (field_name : string) : exn + list body :=
  match suggest_payload resp with
  | None => inl KeyError
  | Some s =>
      entries <~? body_key s field_name ;;
      entry <~? body_first entries ;;
      options <~? body_key entry "options" ;;
      match options with
      | BList l => option_texts l
      | BDict [] => inr []
      | BVal (PStr EmptyString) => inr []
      | BVal (PTuple []) => inr []
      | _ => inl TypeError
      end
  end.

Definition complete (self : ref) (field_name query : string) : M (list body) :=
  c <~ get_cursor self ;;
  resp <~ call_search
    [("index", BList [BStr (index c)]);
     ("body", BDict [("suggest",
                      BDict [(field_name,
                              BDict [("prefix", BStr query);
                                     ("completion", BDict [("field", BStr field_name)])])])])] ;;
  match completion_texts resp field_name with
  | inr texts => ret texts
  | inl KeyError => ret []
  | inl e => raise e
  end.

End Methods.
End EsQueryset.

(** ** The collaborators that are not part of [query.py] *)

(** Modelled from the spec: [django_elasticsearch.utils.nested_update], whose
    source is missing.  The spec describes it as a deep, bucket-aware
    union: the arrays of a clause bucket present on both sides are
    concatenated, mappings present on both sides are merged key by key, and
    any other key is set. *)
Fixpoint merge_value (v : body) (old : option body) : body :=
  match v, old with
  | BList l', Some (BList l) => BList (l ++ l')
  | BDict u, Some (BDict d) =>
      BDict ((fix merge_items (u : list (string * body)) (d : dict body) : dict body :=
                match u with
                | [] => d
                | (k, v') :: r => merge_items r (dict_set k (merge_value v' (dict_get k d)) d)
                end) u d)
  | _, _ => v
  end.

Definition nested_update_spec (d u : dict body) : dict body :=
  fold_left (fun acc kv => dict_set (fst kv) (merge_value (snd kv) (dict_get (fst kv) acc)) acc) u d.

(** What a single-bound range clause [{op: bound}] selects: the documents
    whose field holds a value [v] that compares to the bound as the
    operator says ([filter(id__gt=X)] selects the documents with
    [id > X], and so on). *)
Definition range_holds (op : string) (bound v : Z) : bool :=
  if String.eqb op "gt" then bound <? v
  else if String.eqb op "gte" then bound <=? v
  else if String.eqb op "lt" then v <? bound
  else if String.eqb op "lte" then v <=? bound
  else false.

(** ** Field names *)

Fixpoint ends_with_underscore (s : string) : bool :=
  match s with
  | EmptyString => false
  | String c rest =>
      match rest with
      | EmptyString => is_underscore c
      | String _ _ => ends_with_underscore rest
      end
  end.

(** A single field name: one segment that is not an operator name and
    that the separator cannot run into. *)
Definition plain_field (f : string) : bool :=
  match split_dunder f with
  | [w] => String.eqb w f
  | _ => false
  end && negb (ends_with_underscore f) && negb (is_operator f).

(** ** A test index

    The four documents of the test suite behind a client that pages
    through them, and a client over an empty index. *)

Definition test_doc (id : Z) (first_name last_name : string) : body :=
  BDict [("id", BInt id); ("first_name", BStr first_name); ("last_name", BStr last_name)].

Definition test_docs : list body :=
  [test_doc 1 "John" "Smith"; test_doc 2 "Jack" "Smith";
   test_doc 3 "Mama" "Smith"; test_doc 4 "Foo" "Bar"].

Definition int_param (k : string) (default : Z) (params : dict body) : Z :=
  match dict_get k params with
  | Some (BVal (PInt n)) => n
  | _ => default
  end.

Definition paging_search (docs : list body) (params : dict body) : response :=
  {| hits := take (Z.to_nat (int_param "size" 10 params))
               (drop (Z.to_nat (int_param "from_" 0 params)) docs);
     total_value := Z.of_nat (length docs);
     max_score := PFloat 1;
     aggregations := None;
     suggest_payload := None |}.

Definition test_backend : backend :=
  {| es_search := paging_search test_docs;
     es_count := fun _ _ => 4;
     settings_fuzziness := None |}.

Definition empty_backend : backend :=
  {| es_search := paging_search [];
     es_count := fun _ _ => 0;
     settings_fuzziness := None |}.

Definition test_deserialize (src : body) : instance :=
  {| inst_id := match src with
                | BDict d => match dict_get "id" d with
                             | Some (BVal (PInt n)) => n
                             | _ => 0
                             end
                | _ => 0
                end;
     inst_source := src |}.

Definition TestModel : model_desc :=
  {| es_index := "django-test";
     es_mapping := [("id", Some "long"); ("first_name", Some "text");
                    ("last_name", Some "keyword"); ("groups", Some "nested")];
     es_search_fields := ["first_name"; "last_name"];
     es_ordering := None;
     meta_ordering := None;
     es_deserialize := test_deserialize |}.

Definition empty_world : world :=
  {| cursors := []; dicts := []; search_log := []; count_log := [] |}.

(** The world after [qs = EsQueryset(TestModel)]: [qs] is the reference [0]. *)
Definition test_world : world :=
  snd (EsQueryset.__init__ test_backend TestModel PNone empty_world).

(** ** Vocabulary of the statements *)

Import EsQueryset.

(** The attributes after the assignments [__getitem__] makes before it
    searches. *)
Definition window (ndx : subscript_arg) (c : cursor) : cursor :=
  match ndx with
  | Int n => set_stop (Some (n + 1)) (set_start n (set_result_cache [] c))
  | Slice start stop =>
      set_stop stop
        (set_start (match start with
                    | Some n => if n =? 0 then 0 else n
                    | None => 0
                    end)
           (set_result_cache [] c))
  end.

(** The response has the aggregations [do_search] reads when facets were asked for. *)
Definition facets_available (c : cursor) (r : response) : bool :=
  negb (truthy_seq (facets_fields c)) ||
  match aggregations r with Some _ => true | None => false end.

(** The attributes after a search of [c] that sent [req] and received [r]. *)
Definition store_response (c : cursor) (req : dict body * dict body) (r : response) : cursor :=
  set_total (Some (total_value r))
    (set_max_score (Some (max_score r))
       (set_result_cache (rows_of c r)
          (set_suggestions (suggest_payload r)
             (set_facets (if truthy_seq (facets_fields c) then aggregations r else _facets c)
                (set_response (Some r)
                   (set_body (Some (BDict (snd req))) c)))))).

(** The world after a search on the object [self]. *)
Definition searched (self : ref) (c : cursor) (req : dict body * dict body) (r : response)
  (w : world) : world :=
  with_cursors (<[self := store_response c req r]> (cursors w))
    (with_search_log (search_log w ++ [fst req]) w).

(** The attributes of a clone of [c] whose filters dictionary is [d]:
    those of [c], with the results emptied. *)
Definition clone_of (c : cursor) (d : ref) : cursor :=
  set_total None (set_result_cache [] (set_facets None (set_suggestions None (set_filters d c)))).

(** The world after [self._clone()] with the filters dictionary of the
    clone holding [flt]: [__init__] makes the empty dictionary it binds
    first, [__deepcopy__] the copy that replaces it. *)
Definition cloned (c : cursor) (flt : dict pyval) (w : world) : world :=
  with_cursors (cursors w ++ [clone_of c (S (length (dicts w)))])
    (with_dicts (dicts w ++ [[]; flt]) w).

(** ** Sample runs on the test index *)

(** The attributes of the query set of [test_world]. *)
Definition test_cursor : cursor := initial test_backend TestModel PNone 0%nat.

(** The request a query set with attributes [c] and filters [flt] sends. *)
Definition request_of (c : cursor) (flt : dict pyval) : dict body * dict body :=
  match build_search_request nested_update_spec c flt with
  | inr req => req
  | inl _ => ([], [])
  end.

(** [list(qs)] *)
Definition iterated_world : world :=
  snd (__iter__ test_backend nested_update_spec 0%nat test_world).

Definition iterated_cursor : cursor :=
  store_response test_cursor (request_of test_cursor [])
    (es_search test_backend (fst (request_of test_cursor []))).

(** [qs[0]], then [qs[0]] again. *)
Definition indexed_once : world :=
  snd (__getitem__ test_backend nested_update_spec 0%nat (Int 0) test_world).

Definition indexed_twice : world :=
  snd (__getitem__ test_backend nested_update_spec 0%nat (Int 0) indexed_once).

(** [list(qs)], then [qs[0]]. *)
Definition iterated_then_indexed : world :=
  snd (__getitem__ test_backend nested_update_spec 0%nat (Int 0) iterated_world).

(** [qs[1]] *)
Definition second_row_world : world :=
  snd (__getitem__ test_backend nested_update_spec 0%nat (Int 1) test_world).

(** [list(qs)] over the empty index, then [qs.count()]. *)
Definition empty_iterated_world : world :=
  snd (__iter__ empty_backend nested_update_spec 0%nat test_world).

Definition empty_counted_world : world :=
  snd (count empty_backend nested_update_spec 0%nat empty_iterated_world).

(** [qs.count()], then [qs.count()] again. *)
Definition counted_once : world :=
  snd (count test_backend nested_update_spec 0%nat test_world).

Definition counted_twice : world :=
  snd (count test_backend nested_update_spec 0%nat counted_once).

(** [q1 = qs.filter(groups__id__lte=1)], then [q1.exclude(groups__id__gt=5)]
    against [q1.filter(groups__id__lte=5)], each followed by [list()]. *)
Definition narrowed_world : world :=
  snd (filter test_backend 0%nat [("groups__id__lte", PInt 1)] test_world).

Definition narrowed_excluded : world :=
  snd ((qs <~ exclude test_backend 1%nat [("groups__id__gt", PInt 5)] ;;
        __iter__ test_backend nested_update_spec qs)%method narrowed_world).

Definition narrowed_filtered : world :=
  snd ((qs <~ filter test_backend 1%nat [("groups__id__lte", PInt 5)] ;;
        __iter__ test_backend nested_update_spec qs)%method narrowed_world).

(** ** Vocabulary of the further statements *)

(** The sort entry of an ordering field. *)
Definition sort_of (f : string) : body :=
  match f with
  | String "-" rest => BDict [(rest, BStr "desc")]
  | _ => BDict [(f, BStr "asc")]
  end.

(** A filter value as it is written into a clause. *)
Definition clause_value (v : pyval) : body :=
  match v with
  | PDatetime iso => BStr iso
  | _ => BVal v
  end.

(** The errors that subscripting a filter value can raise. *)
Definition subscript_error (e : exn) : Prop := e = TypeError \/ e = IndexError.

(** The keys of a dictionary are pairwise distinct, as in a Python [dict]. *)
Definition unique_keys {V} (d : dict V) : Prop := List.NoDup (map fst d).

(** The world after a chaining method built on [_clone] that binds
    attributes of the clone: [set] is the assignment, [flt] the content of
    the filters dictionary of the clone. *)
Definition chained (set : cursor -> cursor) (c : cursor) (flt : dict pyval) (w : world) : world :=
  with_cursors (cursors w ++ [set (clone_of c (S (length (dicts w))))])
    (with_dicts (dicts w ++ [[]; flt]) w).

(** The body [do_search] has built from the compiled query before it
    merges the extra body: the aggregations, the suggestions and the
    sort. *)
Definition body_before_extra (c : cursor) (compiled : body) : exn + dict body :=
  let body0 := match compiled with BDict d => d | _ => [] end in
  let body1 :=
    if truthy_seq (facets_fields c)
    then dict_set "aggs" (BDict (make_aggs (opt_list (facets_fields c)) (facets_limit c))) body0
    else body0 in
  let body2 :=
    if truthy_seq (suggest_fields c)
    then dict_set "suggest"
           (BDict (make_suggest (_query c) (opt_list (suggest_fields c)) (suggest_limit c))) body1
    else body1 in
  if truthy_seq (ordering c)
  then sorts <~? sort_entries (opt_list (ordering c)) ;;
       inr (dict_set "sort" (BList (sorts ++ [BStr "_score"])) body2)
  else inr body2.

(** The keyword arguments [complete] calls the client with. *)
Definition completion_request (idx field_name query : string) : dict body :=
  [("index", BList [BStr idx]);
   ("body", BDict [("suggest",
                    BDict [(field_name,
                            BDict [("prefix", BStr query);
                                   ("completion", BDict [("field", BStr field_name)])])])])].

(** ** Running methods *)

Section Properties.

Context (es : backend).
Context (nested_update : dict body -> dict body -> dict body).

Local Open Scope method_scope.

Lemma get_cursor_run (w : world) (a : ref) (c : cursor) :
  cursors w !! a = Some c -> get_cursor a w = (inr c, w).
Proof. intros H. unfold get_cursor. now rewrite H. Qed.

Lemma get_dict_run (w : world) (a : ref) (d : dict pyval) :
  dicts w !! a = Some d -> get_dict a w = (inr d, w).
Proof. intros H. unfold get_dict. now rewrite H. Qed.

Lemma modify_cursor_run (w : world) (a : ref) (c : cursor) (f : cursor -> cursor) :
  cursors w !! a = Some c ->
  modify_cursor a f w = (inr tt, with_cursors (<[a := f c]> (cursors w)) w).
Proof. intros H. unfold modify_cursor. now rewrite H. Qed.

Lemma modify_dict_run (w : world) (a : ref) (d : dict pyval) (f : dict pyval -> dict pyval) :
  dicts w !! a = Some d ->
  modify_dict a f w = (inr tt, with_dicts (<[a := f d]> (dicts w)) w).
Proof. intros H. unfold modify_dict. now rewrite H. Qed.

Lemma lookup_updated (cs : list cursor) (a : ref) (c c' : cursor) :
  cs !! a = Some c -> <[a := c']> cs !! a = Some c'.
Proof. intros H. apply list_lookup_insert_eq. eapply lookup_lt_Some, H. Qed.

(** Run the next assignment to an object of the store. *)
Ltac run_modify :=
  match goal with
  | |- context [modify_cursor ?a ?f ?w] =>
      erewrite (modify_cursor_run w a _ f)
        by (cbn [cursors with_cursors with_search_log with_dicts with_count_log];
            first [ eassumption
                  | apply list_lookup_insert_eq; rewrite ?length_insert;
                    first [ assumption | eapply lookup_lt_Some; eassumption ] ]);
      cbn [cursors with_cursors with_search_log with_dicts with_count_log
           dicts search_log count_log]
  end.

Lemma is_evaluated_cache (c : cursor) :
  is_evaluated c = match _result_cache c with [] => false | _ => true end.
Proof. unfold is_evaluated. now destruct (_result_cache c). Qed.

(** [do_search] on an evaluated query set does nothing at all. *)
Lemma do_search_evaluated (w : world) (self : ref) (c : cursor) :
  cursors w !! self = Some c ->
  is_evaluated c = true ->
  do_search es nested_update self w = (inr tt, w).
Proof.
  intros Hc He. unfold do_search, bind.
  rewrite (get_cursor_run _ _ _ Hc), He. reflexivity.
Qed.

(** [do_search] on a query set with an empty cache sends the request and
    stores what the response holds. *)
Lemma do_search_unevaluated (w : world) (self : ref) (c : cursor) (flt : dict pyval)
  (req : dict body * dict body) :
  cursors w !! self = Some c ->
  is_evaluated c = false ->
  dicts w !! filters c = Some flt ->
  build_search_request nested_update c flt = inr req ->
  facets_available c (es_search es (fst req)) = true ->
  do_search es nested_update self w
  = (inr tt, searched self c req (es_search es (fst req)) w).
Proof.
  intros Hc He Hd Hreq Hf.
  assert (Hlt : (self < length (cursors w))%nat) by (eapply lookup_lt_Some, Hc).
  unfold do_search, bind.
  rewrite (get_cursor_run _ _ _ Hc), He, (get_dict_run _ _ _ Hd), Hreq.
  cbn [lift ret]. unfold call_search.
  unfold facets_available in Hf. unfold searched, store_response.
  destruct (truthy_seq (facets_fields c)) eqn:Ht.
  - destruct (aggregations (es_search es (fst req))) as [a|] eqn:Ha; [|discriminate Hf].
    repeat run_modify. now rewrite !list_insert_insert_eq.
  - unfold ret. repeat run_modify. now rewrite !list_insert_insert_eq.
Qed.

(** Whatever the response holds, an unevaluated [do_search] sends exactly
    the request it built, and touches nothing but the object itself. *)
Lemma do_search_sends (w : world) (self : ref) (c : cursor) (flt : dict pyval)
  (req : dict body * dict body) :
  cursors w !! self = Some c ->
  is_evaluated c = false ->
  dicts w !! filters c = Some flt ->
  build_search_request nested_update c flt = inr req ->
  exists res w',
    do_search es nested_update self w = (res, w') /\
    search_log w' = search_log w ++ [fst req] /\
    count_log w' = count_log w /\
    dicts w' = dicts w /\
    length (cursors w') = length (cursors w) /\
    (facets_available c (es_search es (fst req)) = true ->
     res = inr tt /\ w' = searched self c req (es_search es (fst req)) w).
Proof.
  intros Hc He Hd Hreq.
  destruct (facets_available c (es_search es (fst req))) eqn:Hf.
  - eexists _, _. split; [eapply do_search_unevaluated; eassumption|].
    unfold searched. cbn. rewrite length_insert. repeat split; auto.
  - unfold facets_available in Hf.
    destruct (truthy_seq (facets_fields c)) eqn:Ht; [|discriminate Hf].
    destruct (aggregations (es_search es (fst req))) eqn:Ha; [discriminate Hf|].
    unfold do_search, bind.
    rewrite (get_cursor_run _ _ _ Hc), He, (get_dict_run _ _ _ Hd), Hreq.
    cbn [lift ret]. unfold call_search. rewrite Ht, Ha.
    repeat run_modify. unfold raise.
    eexists _, _. split; [reflexivity|].
    cbn. rewrite !length_insert. repeat split; auto; discriminate.
Qed.

(** The assignments of [__getitem__] before the search. *)
Lemma getitem_run (w : world) (self : ref) (c : cursor) (ndx : subscript_arg) :
  cursors w !! self = Some c ->
  __getitem__ es nested_update self ndx w
  = (do_search es nested_update self ;;;
     c' <~ get_cursor self ;;
     match ndx with
     | Slice _ _ => ret (Rows (_result_cache c'))
     | Int _ =>
         match _result_cache c' with
         | r :: _ => ret (Row r)
         | [] => raise IndexError
         end
     end) (with_cursors (<[self := window ndx c]> (cursors w)) w).
Proof.
  intros Hc. unfold __getitem__, window.
  destruct ndx as [n|start stop]; unfold bind at 1 2 3; repeat run_modify;
    now rewrite !list_insert_insert_eq.
Qed.

(** ** Round trips and the result cache *)

(** The terminal operations that only read an evaluated query set. *)
Lemma iter_evaluated (w : world) (self : ref) (c : cursor) :
  cursors w !! self = Some c ->
  is_evaluated c = true ->
  __iter__ es nested_update self w = (inr (_result_cache c), w).
Proof.
  intros Hc He. unfold __iter__, bind.
  now rewrite (do_search_evaluated _ _ _ Hc He), (get_cursor_run _ _ _ Hc).
Qed.

Lemma len_evaluated (w : world) (self : ref) (c : cursor) :
  cursors w !! self = Some c ->
  is_evaluated c = true ->
  __len__ es nested_update self w = (inr (length (_result_cache c)), w).
Proof.
  intros Hc He. unfold __len__, bind.
  now rewrite (do_search_evaluated _ _ _ Hc He), (get_cursor_run _ _ _ Hc).
Qed.

Lemma contains_evaluated (w : world) (self : ref) (c : cursor) (inst : instance) :
  cursors w !! self = Some c ->
  is_evaluated c = true ->
  __contains__ es nested_update self inst w
  = (match row_ids (_deserialize c) (_result_cache c) with
     | inr ids => inr (existsb (int_eq (inst_id inst)) ids)
     | inl e => inl e
     end, w).
Proof.
  intros Hc He. unfold __contains__, bind.
  rewrite (do_search_evaluated _ _ _ Hc He), (get_cursor_run _ _ _ Hc).
  now destruct (row_ids _ _).
Qed.

(** [qs[ndx]] always searches: the cache is emptied first. *)
Lemma getitem_sends (w : world) (self : ref) (c : cursor) (ndx : subscript_arg)
  (flt : dict pyval) (req : dict body * dict body) :
  cursors w !! self = Some c ->
  dicts w !! filters c = Some flt ->
  build_search_request nested_update (window ndx c) flt = inr req ->
  search_log (snd (__getitem__ es nested_update self ndx w)) = search_log w ++ [fst req].
Proof.
  intros Hc Hd Hreq. rewrite (getitem_run _ _ _ _ Hc).
  set (w1 := with_cursors _ w).
  assert (Hc1 : cursors w1 !! self = Some (window ndx c))
    by (subst w1; cbn; eapply lookup_updated, Hc).
  assert (He : is_evaluated (window ndx c) = false) by (now destruct ndx).
  assert (Hd1 : dicts w1 !! filters (window ndx c) = Some flt) by (now destruct ndx).
  destruct (do_search_sends w1 self _ flt req Hc1 He Hd1 Hreq)
    as (res & w' & Hrun & Hlog & _).
  unfold bind at 1. rewrite Hrun.
  destruct res as [e|[]]; [exact Hlog|].
  unfold bind, get_cursor.
  destruct (cursors w' !! self) as [c'|]; [|exact Hlog].
  destruct ndx; [destruct (_result_cache c')|]; exact Hlog.
Qed.

(** C1, amended: once iteration, a membership test or [len] has left rows
    in the cache, each of these three operations on the same query set
    reads the cache: it returns what the cache holds and leaves the world,
    and so the log of requests, as it was.  Indexing and slicing are not
    of that kind: they empty the cache and send the request of the new
    window, every time. *)
Theorem cache_read_by_iter_len_contains (w : world) (self : ref) (c : cursor)
  (inst : instance) (flt : dict pyval) :
  cursors w !! self = Some c ->
  dicts w !! filters c = Some flt ->
  is_evaluated c = true ->
  __iter__ es nested_update self w = (inr (_result_cache c), w) /\
  __len__ es nested_update self w = (inr (length (_result_cache c)), w) /\
  snd (__contains__ es nested_update self inst w) = w /\
  (forall ndx req,
      build_search_request nested_update (window ndx c) flt = inr req ->
      search_log (snd (__getitem__ es nested_update self ndx w)) = search_log w ++ [fst req]).
Proof.
  intros Hc Hd He. repeat split.
  - now apply iter_evaluated.
  - now apply len_evaluated.
  - now rewrite (contains_evaluated _ _ _ _ Hc He).
  - intros ndx req Hreq. eapply getitem_sends; eassumption.
Qed.

(** ** Indexing works on the query set itself *)

(** Storing a response changes none of the attributes a request is built from. *)
Lemma build_search_request_store_response (c : cursor) (req : dict body * dict body)
  (r : response) (flt : dict pyval) :
  build_search_request nested_update (store_response c req r) flt
  = build_search_request nested_update c flt.
Proof. reflexivity. Qed.

Lemma facets_available_store_response (c : cursor) (req : dict body * dict body)
  (r r' : response) :
  facets_available (store_response c req r) r' = facets_available c r'.
Proof. reflexivity. Qed.

(** The world [qs[ndx]] leaves behind when the search goes through. *)
Lemma getitem_world (w : world) (self : ref) (c : cursor) (ndx : subscript_arg)
  (flt : dict pyval) (req : dict body * dict body) :
  cursors w !! self = Some c ->
  dicts w !! filters c = Some flt ->
  build_search_request nested_update (window ndx c) flt = inr req ->
  facets_available (window ndx c) (es_search es (fst req)) = true ->
  snd (__getitem__ es nested_update self ndx w)
  = searched self (window ndx c) req (es_search es (fst req)) w.
Proof.
  intros Hc Hd Hreq Hf. rewrite (getitem_run _ _ _ _ Hc).
  set (w1 := with_cursors _ w).
  assert (Hc1 : cursors w1 !! self = Some (window ndx c))
    by (subst w1; cbn; eapply lookup_updated, Hc).
  assert (He : is_evaluated (window ndx c) = false) by (now destruct ndx).
  assert (Hd1 : dicts w1 !! filters (window ndx c) = Some flt) by (now destruct ndx).
  unfold bind at 1.
  rewrite (do_search_unevaluated w1 self _ flt req Hc1 He Hd1 Hreq Hf).
  assert (Hw : searched self (window ndx c) req (es_search es (fst req)) w1
               = searched self (window ndx c) req (es_search es (fst req)) w).
  { subst w1. unfold searched. cbn. now rewrite list_insert_insert_eq. }
  rewrite Hw. unfold bind, get_cursor.
  destruct (cursors (searched _ _ _ _ w) !! self) as [c'|]; [|reflexivity].
  destruct ndx; [destruct (_result_cache c')|]; reflexivity.
Qed.

(** The window of [qs[n]] in the request. *)
Lemma request_window (c : cursor) (n : Z) (flt : dict pyval) (req : dict body * dict body) :
  build_search_request nested_update (window (Int n) c) flt = inr req ->
  0 <= n ->
  dict_get "size" (fst req) = Some (BInt 1) /\
  dict_get (match mode c with MODE_SEARCH => "from_" | MODE_MLT => "from" end) (fst req)
  = (if n =? 0 then None else Some (BInt n)).
Proof.
  intros Hreq Hn. unfold build_search_request, bind_exn in Hreq.
  destruct (make_search_body _ _ _) as [e|compiled]; [discriminate|].
  destruct (if truthy_seq (ordering (window (Int n) c)) then _ else _) as [e|body3];
    [discriminate|].
  cbn [window _start _stop set_stop set_start set_result_cache mode mlt_kwargs truthy_int]
    in Hreq.
  replace (n + 1 =? 0) with false in Hreq by lia.
  replace (n + 1 - n) with 1 in Hreq by lia.
  destruct (n =? 0) eqn:Hz; cbn in Hreq.
  - destruct (mode c); [|destruct (mlt_kwargs c); [|discriminate]];
      injection Hreq as <-; split; reflexivity.
  - destruct (mode c); [|destruct (mlt_kwargs c); [|discriminate]];
      injection Hreq as <-; split; reflexivity.
Qed.

(** C10, amended: [qs[ndx]] works on the query set itself.  It empties the
    cache, overwrites the window and stores the response of the windowed
    search in the same object; no other object is made.  A later
    iteration of the same query set therefore yields the rows of the
    windowed search and not the full result set: it reads them from the
    cache when the search returned rows, and it sends the same windowed
    request again only when the search returned none.  For [qs[n]] with
    [0 <= n] the window is the single row at offset [n]. *)
Theorem getitem_in_place_then_iter_window (w : world) (self : ref) (c : cursor)
  (ndx : subscript_arg) (flt : dict pyval) (req : dict body * dict body) :
  cursors w !! self = Some c ->
  dicts w !! filters c = Some flt ->
  build_search_request nested_update (window ndx c) flt = inr req ->
  facets_available (window ndx c) (es_search es (fst req)) = true ->
  let r := es_search es (fst req) in
  let w1 := snd (__getitem__ es nested_update self ndx w) in
  w1 = searched self (window ndx c) req r w /\
  fst (__iter__ es nested_update self w1) = inr (rows_of c r) /\
  (hits r <> [] -> snd (__iter__ es nested_update self w1) = w1) /\
  (hits r = [] ->
   search_log (snd (__iter__ es nested_update self w1)) = search_log w1 ++ [fst req]) /\
  (forall n, ndx = Int n -> 0 <= n ->
     dict_get "size" (fst req) = Some (BInt 1) /\
     dict_get (match mode c with MODE_SEARCH => "from_" | MODE_MLT => "from" end) (fst req)
     = (if n =? 0 then None else Some (BInt n))).
Proof.
  intros Hc Hd Hreq Hf r w1.
  assert (Hw1 : w1 = searched self (window ndx c) req r w)
    by (subst w1 r; now apply getitem_world with (flt := flt)).
  set (c1 := store_response (window ndx c) req r).
  assert (Hc1 : cursors w1 !! self = Some c1)
    by (rewrite Hw1; cbn; eapply lookup_updated, Hc).
  assert (Hcache : _result_cache c1 = rows_of c r) by (now destruct ndx).
  split; [exact Hw1|].
  destruct (hits r) as [|h hs] eqn:Hh.
  - assert (He1 : is_evaluated c1 = false).
    { rewrite is_evaluated_cache, Hcache. unfold rows_of. rewrite Hh.
      now destruct (_deserialize c). }
    assert (Hd1 : dicts w1 !! filters c1 = Some flt)
      by (rewrite Hw1; now destruct ndx).
    assert (Hreq1 : build_search_request nested_update c1 flt = inr req)
      by (subst c1; now rewrite build_search_request_store_response).
    assert (Hf1 : facets_available c1 (es_search es (fst req)) = true)
      by (subst c1; now rewrite facets_available_store_response).
    pose proof (do_search_unevaluated w1 self c1 flt req Hc1 He1 Hd1 Hreq1 Hf1) as Hrun.
    assert (Hit : __iter__ es nested_update self w1
                  = (inr (rows_of c r), searched self c1 req r w1)).
    { unfold __iter__, bind. rewrite Hrun.
      rewrite (get_cursor_run _ self (store_response c1 req r));
        [now destruct ndx|].
      cbn. eapply lookup_updated, Hc1. }
    rewrite Hit. cbn [fst snd]. split; [reflexivity|].
    split; [congruence|]. split; [now rewrite Hw1|].
    intros n -> Hn. now apply request_window with (flt := flt).
  - assert (He1 : is_evaluated c1 = true).
    { rewrite is_evaluated_cache, Hcache. unfold rows_of. rewrite Hh.
      now destruct (_deserialize c). }
    rewrite (iter_evaluated _ _ _ Hc1 He1), Hcache. cbn [fst snd].
    split; [reflexivity|]. split; [reflexivity|]. split; [congruence|].
    intros n -> Hn. now apply request_window with (flt := flt).
Qed.

(** ** Counting *)

(** The compiled body is never empty, so [body or None] is the body. *)
Lemma make_search_body_truthy (c : cursor) (flt : dict pyval) (b : body) :
  make_search_body nested_update c flt = inr b -> body_or_none b = Some b.
Proof.
  unfold make_search_body, bind_exn.
  destruct (merge_filters _ _ _ _); [discriminate|].
  now intros [= <-].
Qed.

(** C6, amended: [count()] returns the cached total, and sends nothing,
    whenever a total other than zero is cached (by an earlier search or an
    earlier count).  Otherwise, in the standard mode it sends one
    count-only request with the compiled body, caches and returns its
    count, and neither searches nor touches the rows; in the
    more-like-this mode it calls [do_search], which searches when the row
    cache is empty and does nothing when it is not, and returns the total
    found on the query set afterwards. *)
Theorem count_cached_or_requested (w : world) (self : ref) (c : cursor) (flt : dict pyval) :
  cursors w !! self = Some c ->
  dicts w !! filters c = Some flt ->
  (truthy_int (_total c) = true ->
   count es nested_update self w = (inr (_total c), w)) /\
  (truthy_int (_total c) = false -> mode c = MODE_SEARCH ->
   forall b, make_search_body nested_update c flt = inr b ->
     let n := es_count es (index c) (Some b) in
     count es nested_update self w
     = (inr (Some n),
        with_cursors (<[self := set_total (Some n) c]> (cursors w))
          (with_count_log (count_log w ++ [(index c, Some b)]) w))) /\
  (truthy_int (_total c) = false -> mode c = MODE_MLT -> is_evaluated c = false ->
   forall req, build_search_request nested_update c flt = inr req ->
     facets_available c (es_search es (fst req)) = true ->
     let r := es_search es (fst req) in
     count es nested_update self w = (inr (Some (total_value r)), searched self c req r w)) /\
  (truthy_int (_total c) = false -> mode c = MODE_MLT -> is_evaluated c = true ->
   count es nested_update self w = (inr (_total c), w)).
Proof.
  intros Hc Hd. repeat split.
  - intros Ht. unfold count, bind. now rewrite (get_cursor_run _ _ _ Hc), Ht.
  - intros Ht Hm b Hb n. unfold count, bind.
    rewrite (get_cursor_run _ _ _ Hc), Ht, Hm, (get_dict_run _ _ _ Hd), Hb.
    cbn [lift ret]. unfold call_count.
    rewrite (make_search_body_truthy _ _ _ Hb).
    now run_modify.
  - intros Ht Hm He req Hreq Hf r. unfold count, bind.
    rewrite (get_cursor_run _ _ _ Hc), Ht, Hm.
    rewrite (do_search_unevaluated _ _ _ _ _ Hc He Hd Hreq Hf).
    rewrite (get_cursor_run _ self (store_response c req r)); [reflexivity|].
    cbn. eapply lookup_updated, Hc.
  - intros Ht Hm He. unfold count, bind.
    rewrite (get_cursor_run _ _ _ Hc), Ht, Hm.
    now rewrite (do_search_evaluated _ _ _ Hc He), (get_cursor_run _ _ _ Hc).
Qed.

(** ** In-place setters *)

(** C9, amended: [deserialize()] makes no clone.  It sets the deserialize
    flag of the query set it is called on and returns that same object;
    every other attribute, the cached rows among them, stays as it was,
    and so does the rest of the world. *)
Theorem deserialize_sets_flag_in_place (w : world) (self : ref) (c : cursor) :
  cursors w !! self = Some c ->
  deserialize self w
  = (inr self, with_cursors (<[self := set_deserialize true c]> (cursors w)) w).
Proof.
  intros Hc. unfold deserialize, bind. now run_modify.
Qed.

(** ** Clones *)

Lemma lookup_new {A} (l : list A) (x : A) : (l ++ [x]) !! length l = Some x.
Proof. now apply list_lookup_middle. Qed.

Lemma lookup_new2 {A} (l : list A) (x y : A) : (l ++ [x; y]) !! S (length l) = Some y.
Proof.
  rewrite lookup_app_r by lia.
  now replace (S (length l) - length l)%nat with 1%nat by lia.
Qed.

Lemma insert_new {A} (l : list A) (x y : A) : <[length l := y]> (l ++ [x]) = l ++ [y].
Proof.
  replace (length l) with (length l + 0)%nat at 1 by lia.
  now rewrite insert_app_r.
Qed.

Lemma insert_new2 {A} (l : list A) (x y z : A) :
  <[S (length l) := z]> (l ++ [x; y]) = l ++ [x; z].
Proof.
  replace (S (length l)) with (length l + 1)%nat by lia.
  now rewrite insert_app_r.
Qed.

(** [_clone] allocates the clone and its own filters dictionary, and
    changes nothing that existed. *)
Lemma clone_run (w : world) (self : ref) (c : cursor) (flt : dict pyval) :
  cursors w !! self = Some c ->
  dicts w !! filters c = Some flt ->
  _clone es self w = (inr (length (cursors w)), cloned c flt w).
Proof.
  intros Hc Hd. unfold _clone, __deepcopy__, __init__, bind.
  rewrite (get_cursor_run _ _ _ Hc).
  unfold alloc_dict at 1. unfold alloc_cursor.
  cbn [cursors dicts with_cursors with_dicts search_log count_log].
  rewrite (get_dict_run _ (filters c) flt)
    by (cbn; now apply lookup_app_l_Some).
  unfold alloc_dict.
  cbn [cursors dicts with_cursors with_dicts search_log count_log].
  unfold modify_cursor, ret.
  cbn [cursors dicts with_cursors with_dicts search_log count_log].
  rewrite lookup_new, insert_new.
  cbn [cursors dicts with_cursors with_dicts search_log count_log].
  rewrite lookup_new, insert_new.
  cbn [cursors dicts with_cursors with_dicts search_log count_log].
  rewrite lookup_new, insert_new.
  unfold cloned. rewrite length_app, <- app_assoc. cbn [length app].
  replace (length (dicts w) + 1)%nat with (S (length (dicts w))) by lia.
  reflexivity.
Qed.

Lemma dict_get_set {V} (k : string) (v : V) (d : dict V) :
  dict_get k (dict_set k v d) = Some v.
Proof.
  induction d as [|[k' v'] d IH]; cbn.
  - now rewrite String.eqb_refl.
  - destruct (String.eqb k k') eqn:E; cbn; now rewrite E.
Qed.

(** [filter] is [_clone] followed by an update of the dictionary of the clone. *)
Lemma filter_run (w : world) (self : ref) (c : cursor) (flt kwargs : dict pyval) :
  cursors w !! self = Some c ->
  dicts w !! filters c = Some flt ->
  filter es self kwargs w
  = (inr (length (cursors w)), cloned c (dict_update flt kwargs) w).
Proof.
  intros Hc Hd. unfold filter, bind.
  rewrite (clone_run _ _ _ _ Hc Hd).
  rewrite (get_cursor_run _ _ (clone_of c (S (length (dicts w)))))
    by (cbn; apply lookup_new).
  rewrite (modify_dict_run _ _ flt) by (cbn; apply lookup_new2).
  unfold ret, cloned. cbn. now rewrite insert_new2.
Qed.

(** C2: for a query set [A] and [B = A.filter(k=v1)], [C = A.filter(k=v2)]:
    both calls return; [A] keeps every attribute and its filters
    dictionary keeps its content; the dictionary of [B] is that of [A]
    updated with [k=v1] and the dictionary of [C] that of [A] updated with
    [k=v2]; the three objects are distinct and so are their three
    dictionaries, which are the only state the code mutates in place; no
    request is sent. *)
Theorem filter_clones_are_independent (w : world) (a : ref) (A : cursor) (F : dict pyval)
  (k : string) (v1 v2 : pyval) :
  cursors w !! a = Some A ->
  dicts w !! filters A = Some F ->
  exists (b c : ref) (w1 w2 : world) (B C : cursor),
    filter es a [(k, v1)] w = (inr b, w1) /\
    filter es a [(k, v2)] w1 = (inr c, w2) /\
    cursors w2 !! a = Some A /\
    dicts w2 !! filters A = Some F /\
    cursors w2 !! b = Some B /\
    dicts w2 !! filters B = Some (dict_update F [(k, v1)]) /\
    dict_get k (dict_update F [(k, v1)]) = Some v1 /\
    cursors w2 !! c = Some C /\
    dicts w2 !! filters C = Some (dict_update F [(k, v2)]) /\
    dict_get k (dict_update F [(k, v2)]) = Some v2 /\
    a <> b /\ a <> c /\ b <> c /\
    filters A <> filters B /\ filters A <> filters C /\ filters B <> filters C /\
    B = clone_of A (filters B) /\ C = clone_of A (filters C) /\
    search_log w2 = search_log w /\ count_log w2 = count_log w.
Proof.
  intros Hc Hd.
  pose proof (lookup_lt_Some _ _ _ Hc) as Hlt.
  pose proof (lookup_lt_Some _ _ _ Hd) as Hltd.
  set (w1 := cloned A (dict_update F [(k, v1)]) w).
  assert (Hc1 : cursors w1 !! a = Some A) by (cbn; now apply lookup_app_l_Some).
  assert (Hd1 : dicts w1 !! filters A = Some F) by (cbn; now apply lookup_app_l_Some).
  exists (length (cursors w)), (length (cursors w1)), w1,
         (cloned A (dict_update F [(k, v2)]) w1),
         (clone_of A (S (length (dicts w)))), (clone_of A (S (length (dicts w1)))).
  split; [now apply filter_run|].
  split; [now apply filter_run|].
  split; [cbn; now do 2 apply lookup_app_l_Some|].
  split; [cbn; now do 2 apply lookup_app_l_Some|].
  split; [cbn; apply lookup_app_l_Some, lookup_new|].
  split; [cbn; apply lookup_app_l_Some, lookup_new2|].
  split; [apply dict_get_set|].
  split; [cbn; apply lookup_new|].
  split; [cbn; apply (lookup_new2 (dicts w ++ _))|].
  split; [apply dict_get_set|].
  cbn. rewrite !length_app. cbn.
  repeat split; lia.
Qed.

End Properties.

(** ** Lookup strings *)

Lemma cons_head_nonempty (c : ascii) (ws : list string) : cons_head c ws <> [].
Proof. now destruct ws. Qed.

Lemma split_dunder_nonempty (s : string) : split_dunder s <> [].
Proof.
  destruct s as [|c [|d rest]]; [discriminate|discriminate|].
  change (split_dunder (String c (String d rest)))
    with (if is_underscore c && is_underscore d
          then "" :: split_dunder rest
          else cons_head c (split_dunder (String d rest))).
  destruct (is_underscore c && is_underscore d); [discriminate|].
  apply cons_head_nonempty.
Qed.

Lemma cons_head_app (c : ascii) (ws ws' : list string) :
  ws <> [] -> cons_head c (ws ++ ws') = cons_head c ws ++ ws'.
Proof. now destruct ws. Qed.

(** A lookup ending in the separator and a word splits into the segments
    of what precedes the separator and those of the word, provided no
    underscore stands right before the separator. *)
Lemma split_dunder_app (w : string) (n : nat) :
  forall f : string,
    (String.length f <= n)%nat ->
    ends_with_underscore f = false ->
    split_dunder (f +:+ "__" +:+ w) = split_dunder f ++ split_dunder w.
Proof.
  induction n as [|n IH]; intros f Hlen Hend.
  - destruct f; [reflexivity|cbn in Hlen; lia].
  - destruct f as [|c [|d rest]]; [reflexivity| |].
    + change (ends_with_underscore (String c "")) with (is_underscore c) in Hend.
      change (split_dunder (String c "" +:+ "__" +:+ w))
        with (if is_underscore c && is_underscore "_"
              then "" :: split_dunder (String "_" w)
              else cons_head c (split_dunder (String "_" (String "_" w)))).
      rewrite Hend. reflexivity.
    + change (split_dunder (String c (String d rest) +:+ "__" +:+ w))
        with (if is_underscore c && is_underscore d
              then "" :: split_dunder (rest +:+ "__" +:+ w)
              else cons_head c (split_dunder (String d rest +:+ "__" +:+ w))).
      change (split_dunder (String c (String d rest)))
        with (if is_underscore c && is_underscore d
              then "" :: split_dunder rest
              else cons_head c (split_dunder (String d rest))).
      destruct (is_underscore c && is_underscore d) eqn:E.
      * apply andb_prop in E as [_ Ed].
        assert (Hrest : ends_with_underscore rest = false).
        { destruct rest; [cbn in Hend; congruence|exact Hend]. }
        rewrite IH; [reflexivity|cbn in Hlen; lia|exact Hrest].
      * rewrite IH; [|cbn in Hlen |- *; lia|exact Hend].
        apply cons_head_app, split_dunder_nonempty.
Qed.

Lemma filter_all {A} (p : A -> bool) (l : list A) :
  Forall (fun x => p x = true) l -> List.filter p l = l.
Proof.
  induction 1 as [|x l Hx _ IH]; [reflexivity|].
  cbn. now rewrite Hx, IH.
Qed.

(** The parse of a lookup from its segments. *)
Lemma sanitize_lookup_segments (lookup : string) (init : list string) (lst : string) :
  split_dunder lookup = init ++ [lst] ->
  sanitize_lookup lookup
  = (String.concat "." (List.filter (fun word => negb (is_operator word)) init ++
                        if is_operator lst then [] else [lst]),
     if is_operator lst then lst else "must").
Proof.
  intros Hs. unfold sanitize_lookup. rewrite Hs, List.last_last, List.filter_app.
  change (List.filter (fun word => negb (is_operator word)) [lst])
    with (if negb (is_operator lst) then [lst] else []).
  now destruct (is_operator lst).
Qed.

(** The parse of [f__op] for an operator [op]: the operator is consumed
    and the path is that of the segments of [f]. *)
Lemma sanitize_lookup_operator (f op : string) :
  ends_with_underscore f = false ->
  split_dunder op = [op] ->
  is_operator op = true ->
  sanitize_lookup (f +:+ "__" +:+ op)
  = (String.concat "." (List.filter (fun word => negb (is_operator word)) (split_dunder f)), op).
Proof.
  intros Hend Hop Hisop.
  rewrite (sanitize_lookup_segments _ (split_dunder f) op).
  - now rewrite Hisop, app_nil_r.
  - rewrite (split_dunder_app op (String.length f) f (le_n _) Hend). now rewrite Hop.
Qed.

Lemma plain_field_segments (f : string) :
  plain_field f = true ->
  split_dunder f = [f] /\ ends_with_underscore f = false /\ is_operator f = false.
Proof.
  unfold plain_field. intros H.
  apply andb_prop in H as [H Hop]. apply andb_prop in H as [Hs Hend].
  apply negb_true_iff in Hop, Hend.
  destruct (split_dunder f) as [|w [|? ?]]; try discriminate.
  apply String.eqb_eq in Hs. now subst.
Qed.

Lemma sanitize_lookup_plain (f op : string) :
  plain_field f = true ->
  split_dunder op = [op] ->
  is_operator op = true ->
  sanitize_lookup (f +:+ "__" +:+ op) = (f, op).
Proof.
  intros Hf Hop Hisop. apply plain_field_segments in Hf as (Hs & Hend & Hnop).
  rewrite (sanitize_lookup_operator _ _ Hend Hop Hisop), Hs.
  change (List.filter (fun word => negb (is_operator word)) [f])
    with (if negb (is_operator f) then [f] else []).
  now rewrite Hnop.
Qed.

Lemma inverse_map_cases (op inv : string) :
  dict_get op inverse_map = Some inv ->
  (op = "gt" /\ inv = "lte") \/ (op = "gte" /\ inv = "lt") \/
  (op = "lt" /\ inv = "gte") \/ (op = "lte" /\ inv = "gt").
Proof.
  unfold inverse_map. cbn.
  destruct (String.eqb op "gt") eqn:E1;
    [apply String.eqb_eq in E1; intros [= <-]; auto|].
  destruct (String.eqb op "gte") eqn:E2;
    [apply String.eqb_eq in E2; intros [= <-]; auto|].
  destruct (String.eqb op "lt") eqn:E3;
    [apply String.eqb_eq in E3; intros [= <-]; auto|].
  destruct (String.eqb op "lte") eqn:E4;
    [apply String.eqb_eq in E4; intros [= <-]; auto 6|].
  discriminate.
Qed.

(** C5, amended: the operator is the trailing segment when that segment is
    an operator name and [must] otherwise; the field path is the join with
    [.] of the segments that are not operator names, wherever they stand.
    So when no segment before the last is an operator name, the path is
    the whole key without a trailing operator. *)
Theorem sanitize_lookup_drops_operator_segments (lookup : string) (init : list string)
  (lst : string) :
  split_dunder lookup = init ++ [lst] ->
  snd (sanitize_lookup lookup) = (if is_operator lst then lst else "must") /\
  fst (sanitize_lookup lookup)
  = String.concat "." (List.filter (fun word => negb (is_operator word)) init ++
                       if is_operator lst then [] else [lst]) /\
  (Forall (fun word => negb (is_operator word) = true) init ->
   sanitize_lookup lookup
   = if is_operator lst
     then (String.concat "." init, lst)
     else (String.concat "." (init ++ [lst]), "must")).
Proof.
  intros Hs. rewrite (sanitize_lookup_segments _ _ _ Hs).
  split; [reflexivity|]. split; [reflexivity|].
  intros Hall. rewrite (filter_all _ _ Hall).
  destruct (is_operator lst); [now rewrite app_nil_r|reflexivity].
Qed.

(** ** Excluding *)

Section Excluding.

Context (es : backend).
Context (nested_update : dict body -> dict body -> dict body).

Local Open Scope method_scope.

(** When the loop of [exclude] ends with the dictionary [filters'], the
    call is the call of [filter] with [filters']. *)
Lemma exclude_as_filter (w : world) (self : ref) (kwargs filters' : dict pyval) :
  exclude_filters [] kwargs = inr filters' ->
  exclude es self kwargs w = filter es self filters' w.
Proof.
  intros H. unfold exclude, filter, bind. rewrite H.
  now destruct (_clone es self w) as [[e|clone] w'].
Qed.

Lemma exclude_entry_comparison (lookup field op inv : string) (x : pyval) :
  sanitize_lookup lookup = (field, op) ->
  dict_get op inverse_map = Some inv ->
  exclude_entry [] lookup x = inr [(field +:+ "__" +:+ inv, x)].
Proof.
  intros Hs Hinv. unfold exclude_entry. rewrite Hs.
  destruct (inverse_map_cases _ _ Hinv) as [[-> ->]|[[-> ->]|[[-> ->]|[-> ->]]]];
    reflexivity.
Qed.

Lemma exclude_entry_range (lookup field : string) (lo hi : pyval) :
  sanitize_lookup lookup = (field, "range") ->
  exclude_entry [] lookup (PTuple [lo; hi]) = inr [(lookup, PTuple [hi; lo])].
Proof. intros Hs. unfold exclude_entry. now rewrite Hs. Qed.

Lemma range_holds_inverse (op inv : string) (bound v : Z) :
  dict_get op inverse_map = Some inv ->
  range_holds inv bound v = negb (range_holds op bound v).
Proof.
  intros Hinv.
  destruct (inverse_map_cases _ _ Hinv) as [[-> ->]|[[-> ->]|[[-> ->]|[-> ->]]]];
    unfold range_holds; cbn; lia.
Qed.

(** C3: the code does not reject the exclusion of a range lookup.  For a
    lookup whose operator is [range] and a pair of bounds, [exclude]
    returns a clone whose filters hold the same lookup with the two bounds
    swapped; no exception is raised. *)
Theorem exclude_range_swaps_bounds (w : world) (self : ref) (c : cursor) (flt : dict pyval)
  (lookup : string) (lo hi : pyval) :
  cursors w !! self = Some c ->
  dicts w !! filters c = Some flt ->
  snd (sanitize_lookup lookup) = "range" ->
  exclude es self [(lookup, PTuple [lo; hi])] w
  = (inr (length (cursors w)), cloned c (dict_update flt [(lookup, PTuple [hi; lo])]) w).
Proof.
  intros Hc Hd Hop.
  destruct (sanitize_lookup lookup) as [field op] eqn:Hs. cbn in Hop. subst op.
  rewrite (exclude_as_filter w self _ [(lookup, PTuple [hi; lo])]).
  - now apply filter_run.
  - cbn [exclude_filters]. now rewrite (exclude_entry_range _ _ _ _ Hs).
Qed.

(** C4, amended: for a single field name [f] (one segment, not an operator
    name) and a comparison [op] among gt, gte, lt, lte with inverse [inv]
    (gt/lte, gte/lt, lt/gte, lte/gt), [exclude(f__op=X)] is
    [filter(f__inv=X)]: the same clone, the same filters, the same world,
    and so the same rows when the clone is iterated.  The inverse is the
    complement of the comparison on every value the field holds. *)
Theorem exclude_comparison_is_inverse_filter (w : world) (self : ref) (f op inv : string)
  (x : pyval) :
  plain_field f = true ->
  dict_get op inverse_map = Some inv ->
  exclude es self [(f +:+ "__" +:+ op, x)] w = filter es self [(f +:+ "__" +:+ inv, x)] w /\
  (qs <~ exclude es self [(f +:+ "__" +:+ op, x)] ;; __iter__ es nested_update qs) w
  = (qs <~ filter es self [(f +:+ "__" +:+ inv, x)] ;; __iter__ es nested_update qs) w /\
  (forall bound v : Z, range_holds inv bound v = negb (range_holds op bound v)).
Proof.
  intros Hf Hinv.
  assert (Hs : sanitize_lookup (f +:+ "__" +:+ op) = (f, op)).
  { destruct (inverse_map_cases _ _ Hinv) as [[-> _]|[[-> _]|[[-> _]|[-> _]]]];
      now apply sanitize_lookup_plain. }
  assert (Hrun : exclude es self [(f +:+ "__" +:+ op, x)] w
                 = filter es self [(f +:+ "__" +:+ inv, x)] w).
  { apply exclude_as_filter. cbn [exclude_filters].
    now rewrite (exclude_entry_comparison _ _ _ _ x Hs Hinv). }
  split; [exact Hrun|]. split.
  - unfold bind. now rewrite Hrun.
  - intros bound v. now apply range_holds_inverse.
Qed.

End Excluding.

(** ** The compiled body *)

Section Compiling.

Context (nested_update : dict body -> dict body -> dict body).







(** C8: with a query text, the boolean body is built from a single [must]
    clause, a [multi_match] of the text over the search fields of the
    model with the fuzziness of the query set ([AUTO] when it is [None]),
    into which the fragments of the filters are merged in turn; without
    filters the compiled body is that clause alone.  Without a query text
    and without filters the compiled body is a single [must] [match_all]
    clause. *)
Theorem compiled_body_seed (c : cursor) (flt : dict pyval) :
  let multi_match :=
    [("must",
      BList [BDict [("multi_match",
                     BDict [("query", BStr (_query c));
                            ("fields", BList (map BStr (es_search_fields (model c))));
                            ("fuzziness", match fuzziness c with
                                          | PNone => BStr "AUTO"
                                          | fz => BVal fz
                                          end)])]])] in
  let match_all := [("must", BList [BDict [("match_all", BDict [])]])] in
  (_query c <> "" ->
   make_search_body nested_update c flt
   = match merge_filters nested_update (es_mapping (model c)) multi_match flt with
     | inr search => inr (BDict [("query", BDict [("bool", BDict search)])])
     | inl e => inl e
     end /\
   make_search_body nested_update c []
   = inr (BDict [("query", BDict [("bool", BDict multi_match)])])) /\
  (_query c = "" ->
   make_search_body nested_update c []
   = inr (BDict [("query", BDict [("bool", BDict match_all)])])).
Proof.
  intros multi_match match_all. split.
  - intros Hq. apply String.eqb_neq in Hq.
    unfold make_search_body, seed. rewrite Hq. split; reflexivity.
  - intros Hq. unfold make_search_body, seed. now rewrite Hq.
Qed.

End Compiling.


(** ** The statements on the test index *)

Ltac by_compute := vm_compute; reflexivity.

Ltac refute_compute :=
  let H := fresh in intros H; vm_compute in H; discriminate H.

Ltac conj_compute :=
  repeat match goal with |- _ /\ _ => split end;
  first [ by_compute | refute_compute ].

(** C1, as stated, fails: [qs[0]] after [qs[0]], and [qs[0]] after
    [list(qs)], send a second request although the query set holds rows
    and nothing of its query state changed in between. *)
Lemma repeated_indexing_searches_again :
  (is_evaluated <$> cursors indexed_once !! 0%nat) = Some true /\
  cursors indexed_twice = cursors indexed_once /\
  dicts indexed_twice = dicts indexed_once /\
  length (search_log indexed_once) = 1%nat /\
  search_log indexed_twice = search_log indexed_once ++ search_log indexed_once /\
  search_log indexed_twice <> search_log indexed_once /\
  (is_evaluated <$> cursors iterated_world !! 0%nat) = Some true /\
  length (search_log iterated_world) = 1%nat /\
  length (search_log iterated_then_indexed) = 2%nat.
Proof. conj_compute. Qed.

Lemma cache_read_by_iter_len_contains_witness :
  cursors iterated_world !! 0%nat = Some iterated_cursor /\
  dicts iterated_world !! filters iterated_cursor = Some [] /\
  is_evaluated iterated_cursor = true /\
  __iter__ test_backend nested_update_spec 0%nat iterated_world
  = (inr (_result_cache iterated_cursor), iterated_world) /\
  __len__ test_backend nested_update_spec 0%nat iterated_world
  = (inr (length (_result_cache iterated_cursor)), iterated_world) /\
  snd (__contains__ test_backend nested_update_spec 0%nat
         (test_deserialize (test_doc 2 "Jack" "Smith")) iterated_world) = iterated_world /\
  search_log (snd (__getitem__ test_backend nested_update_spec 0%nat (Int 1) iterated_world))
  = search_log iterated_world ++ [fst (request_of (window (Int 1) iterated_cursor) [])].
Proof.
  assert (Hc : cursors iterated_world !! 0%nat = Some iterated_cursor) by by_compute.
  assert (Hd : dicts iterated_world !! filters iterated_cursor = Some []) by by_compute.
  assert (He : is_evaluated iterated_cursor = true) by by_compute.
  destruct (cache_read_by_iter_len_contains test_backend nested_update_spec
              iterated_world 0%nat iterated_cursor
              (test_deserialize (test_doc 2 "Jack" "Smith")) [] Hc Hd He)
    as (Hiter & Hlen & Hin & Hget).
  split; [exact Hc|]. split; [exact Hd|]. split; [exact He|].
  split; [exact Hiter|]. split; [exact Hlen|]. split; [exact Hin|].
  apply (Hget (Int 1) (request_of (window (Int 1) iterated_cursor) [])).
  by_compute.
Defined.

(** C10, as stated, fails: after [qs[1]] found its row, iterating [qs]
    yields that one row from the cache and sends no request. *)
Lemma iteration_after_indexing_reads_cache :
  fst (__getitem__ test_backend nested_update_spec 0%nat (Int 1) test_world)
  = inr (Row (RawRow (test_doc 2 "Jack" "Smith"))) /\
  length (search_log second_row_world) = 1%nat /\
  __iter__ test_backend nested_update_spec 0%nat second_row_world
  = (inr [RawRow (test_doc 2 "Jack" "Smith")], second_row_world) /\
  search_log (snd (__iter__ test_backend nested_update_spec 0%nat second_row_world))
  = search_log second_row_world /\
  fst (__iter__ test_backend nested_update_spec 0%nat test_world)
  <> fst (__iter__ test_backend nested_update_spec 0%nat second_row_world).
Proof. conj_compute. Qed.

Lemma getitem_in_place_then_iter_window_witness :
  cursors test_world !! 0%nat = Some test_cursor /\
  dicts test_world !! filters test_cursor = Some [] /\
  build_search_request nested_update_spec (window (Int 1) test_cursor) []
  = inr (request_of (window (Int 1) test_cursor) []) /\
  second_row_world
  = searched 0%nat (window (Int 1) test_cursor) (request_of (window (Int 1) test_cursor) [])
      (es_search test_backend (fst (request_of (window (Int 1) test_cursor) []))) test_world /\
  fst (__iter__ test_backend nested_update_spec 0%nat second_row_world)
  = inr (rows_of test_cursor
           (es_search test_backend (fst (request_of (window (Int 1) test_cursor) [])))) /\
  dict_get "size" (fst (request_of (window (Int 1) test_cursor) [])) = Some (BInt 1) /\
  dict_get "from_" (fst (request_of (window (Int 1) test_cursor) [])) = Some (BInt 1).
Proof.
  assert (Hc : cursors test_world !! 0%nat = Some test_cursor) by by_compute.
  assert (Hd : dicts test_world !! filters test_cursor = Some []) by by_compute.
  assert (Hreq : build_search_request nested_update_spec (window (Int 1) test_cursor) []
                 = inr (request_of (window (Int 1) test_cursor) [])) by by_compute.
  assert (Hf : facets_available (window (Int 1) test_cursor)
                 (es_search test_backend (fst (request_of (window (Int 1) test_cursor) [])))
               = true) by by_compute.
  destruct (getitem_in_place_then_iter_window test_backend nested_update_spec
              test_world 0%nat test_cursor (Int 1) []
              (request_of (window (Int 1) test_cursor) []) Hc Hd Hreq Hf)
    as (Hw & Hit & _ & _ & Hwin).
  destruct (Hwin 1 eq_refl ltac:(lia)) as [Hsize Hfrom].
  split; [exact Hc|]. split; [exact Hd|]. split; [exact Hreq|].
  split; [exact Hw|]. split; [exact Hit|]. split; [exact Hsize|exact Hfrom].
Defined.

(** C6, as stated, fails both ways.  After a search that found nothing,
    the query set has been evaluated and its total is 0, yet [count()]
    sends a count request.  And a second [count()] on a query set that was
    never searched sends nothing: the first one cached its total. *)
Lemma count_after_empty_search_asks_again :
  length (search_log empty_iterated_world) = 1%nat /\
  (_total <$> cursors empty_iterated_world !! 0%nat) = Some (Some 0) /\
  length (count_log empty_iterated_world) = 0%nat /\
  length (count_log empty_counted_world) = 1%nat /\
  count_log empty_counted_world <> count_log empty_iterated_world /\
  (is_evaluated <$> cursors counted_once !! 0%nat) = Some false /\
  length (count_log counted_once) = 1%nat /\
  count test_backend nested_update_spec 0%nat counted_once = (inr (Some 4), counted_once).
Proof. conj_compute. Qed.

Lemma count_cached_or_requested_witness :
  cursors counted_once !! 0%nat = Some (set_total (Some 4) test_cursor) /\
  cursors test_world !! 0%nat = Some test_cursor /\
  count test_backend nested_update_spec 0%nat counted_once = (inr (Some 4), counted_once) /\
  length (count_log (snd (count test_backend nested_update_spec 0%nat test_world))) = 1%nat /\
  search_log (snd (count test_backend nested_update_spec 0%nat test_world)) = [].
Proof.
  assert (Hc1 : cursors counted_once !! 0%nat = Some (set_total (Some 4) test_cursor))
    by by_compute.
  assert (Hd1 : dicts counted_once !! filters (set_total (Some 4) test_cursor) = Some [])
    by by_compute.
  assert (Hc : cursors test_world !! 0%nat = Some test_cursor) by by_compute.
  assert (Hd : dicts test_world !! filters test_cursor = Some []) by by_compute.
  destruct (count_cached_or_requested test_backend nested_update_spec
              counted_once 0%nat _ [] Hc1 Hd1) as (Hcached & _).
  destruct (count_cached_or_requested test_backend nested_update_spec
              test_world 0%nat _ [] Hc Hd) as (_ & Hask & _).
  split; [exact Hc1|]. split; [exact Hc|].
  split; [exact (Hcached eq_refl)|].
  rewrite (Hask eq_refl eq_refl
             (BDict [("query", BDict [("bool", BDict [("must", BList [BDict [("match_all", BDict [])]])])])])
             ltac:(by_compute)).
  split; by_compute.
Defined.

(** C9, as stated, fails: [deserialize()] returns the query set it was
    called on, whose flag it has set; no other object exists afterwards. *)
Lemma deserialize_returns_self :
  fst (deserialize 0%nat test_world) = inr 0%nat /\
  (_deserialize <$> cursors test_world !! 0%nat) = Some false /\
  (_deserialize <$> cursors (snd (deserialize 0%nat test_world)) !! 0%nat) = Some true /\
  length (cursors (snd (deserialize 0%nat test_world))) = 1%nat /\
  cursors (snd (deserialize 0%nat test_world)) !! 0%nat <> cursors test_world !! 0%nat.
Proof. conj_compute. Qed.

Lemma deserialize_sets_flag_in_place_witness :
  cursors test_world !! 0%nat = Some test_cursor /\
  deserialize 0%nat test_world
  = (inr 0%nat, with_cursors (<[0%nat := set_deserialize true test_cursor]> (cursors test_world))
                  test_world).
Proof.
  assert (Hc : cursors test_world !! 0%nat = Some test_cursor) by by_compute.
  split; [exact Hc|].
  exact (deserialize_sets_flag_in_place test_world 0%nat test_cursor Hc).
Defined.

Lemma filter_clones_are_independent_witness :
  cursors test_world !! 0%nat = Some test_cursor /\
  dicts test_world !! filters test_cursor = Some [] /\
  exists (b c : ref) (w1 w2 : world) (B C : cursor),
    filter test_backend 0%nat [("first_name", PStr "John")] test_world = (inr b, w1) /\
    filter test_backend 0%nat [("first_name", PStr "Jack")] w1 = (inr c, w2) /\
    cursors w2 !! 0%nat = Some test_cursor /\
    dicts w2 !! filters test_cursor = Some [] /\
    cursors w2 !! b = Some B /\
    dicts w2 !! filters B = Some [("first_name", PStr "John")] /\
    cursors w2 !! c = Some C /\
    dicts w2 !! filters C = Some [("first_name", PStr "Jack")] /\
    filters test_cursor <> filters B /\ filters test_cursor <> filters C /\
    filters B <> filters C.
Proof.
  assert (Hc : cursors test_world !! 0%nat = Some test_cursor) by by_compute.
  assert (Hd : dicts test_world !! filters test_cursor = Some []) by by_compute.
  split; [exact Hc|]. split; [exact Hd|].
  destruct (filter_clones_are_independent test_backend test_world 0%nat test_cursor []
              "first_name" (PStr "John") (PStr "Jack") Hc Hd)
    as (b & c & w1 & w2 & B & C & H1 & H2 & H3 & H4 & H5 & H6 & _ & H8 & H9 & _ &
        _ & _ & _ & H14 & H15 & H16 & _).
  exists b, c, w1, w2, B, C. repeat split; assumption.
Defined.

Lemma exclude_range_swaps_bounds_witness :
  cursors test_world !! 0%nat = Some test_cursor /\
  dicts test_world !! filters test_cursor = Some [] /\
  snd (sanitize_lookup "id__range") = "range" /\
  exclude test_backend 0%nat [("id__range", PTuple [PInt 0; PInt 1])] test_world
  = (inr 1%nat, cloned test_cursor [("id__range", PTuple [PInt 1; PInt 0])] test_world).
Proof.
  assert (Hc : cursors test_world !! 0%nat = Some test_cursor) by by_compute.
  assert (Hd : dicts test_world !! filters test_cursor = Some []) by by_compute.
  assert (Hs : snd (sanitize_lookup "id__range") = "range") by by_compute.
  split; [exact Hc|]. split; [exact Hd|]. split; [exact Hs|].
  exact (exclude_range_swaps_bounds test_backend test_world 0%nat test_cursor []
           "id__range" (PInt 0) (PInt 1) Hc Hd Hs).
Defined.

(** C4, as stated, fails on a lookup that names a sub-field:
    [exclude(groups__id__gt=5)] stores the key [groups.id__lte] where
    [filter(groups__id__lte=5)] stores [groups__id__lte].  On a query set
    that already holds [groups__id__lte=1] the first adds a second entry
    and the second overwrites the entry, and the two requests differ.  It
    fails as well on a field named like an operator: [exclude(range__gt=5)]
    stores the key [__lte]. *)
Lemma exclude_of_subfield_is_another_key :
  exclude test_backend 0%nat [("groups__id__gt", PInt 5)] test_world
  <> filter test_backend 0%nat [("groups__id__lte", PInt 5)] test_world /\
  dicts (snd (exclude test_backend 0%nat [("range__gt", PInt 5)] test_world)) !! 2%nat
  = Some [("__lte", PInt 5)] /\
  dicts (snd (exclude test_backend 0%nat [("groups__id__gt", PInt 5)] test_world)) !! 2%nat
  = Some [("groups.id__lte", PInt 5)] /\
  dicts (snd (filter test_backend 0%nat [("groups__id__lte", PInt 5)] test_world)) !! 2%nat
  = Some [("groups__id__lte", PInt 5)] /\
  dicts narrowed_excluded !! 4%nat
  = Some [("groups__id__lte", PInt 1); ("groups.id__lte", PInt 5)] /\
  dicts narrowed_filtered !! 4%nat = Some [("groups__id__lte", PInt 5)] /\
  search_log narrowed_excluded <> search_log narrowed_filtered.
Proof. conj_compute. Qed.

Lemma exclude_comparison_is_inverse_filter_witness :
  plain_field "id" = true /\
  dict_get "gt" inverse_map = Some "lte" /\
  exclude test_backend 0%nat [("id__gt", PInt 2)] test_world
  = filter test_backend 0%nat [("id__lte", PInt 2)] test_world /\
  range_holds "lte" 2 3 = negb (range_holds "gt" 2 3).
Proof.
  assert (Hf : plain_field "id" = true) by by_compute.
  assert (Hinv : dict_get "gt" inverse_map = Some "lte") by by_compute.
  destruct (exclude_comparison_is_inverse_filter test_backend nested_update_spec
              test_world 0%nat "id" "gt" "lte" (PInt 2) Hf Hinv) as (Hrun & _ & Hcompl).
  split; [exact Hf|]. split; [exact Hinv|]. split; [exact Hrun|exact (Hcompl 2 3)].
Defined.

(** C5, as stated, fails: a segment that is an operator name is dropped
    from the path wherever it stands.  In [range__min] the trailing
    segment is no operator, yet the path is [min] and not the whole key;
    in [must__gt] the trailing operator is consumed and [must] is dropped
    as well. *)
Lemma operator_named_segment_is_dropped :
  is_operator (List.last (split_dunder "range__min") "") = false /\
  sanitize_lookup "range__min" = ("min", "must") /\
  String.concat "." (split_dunder "range__min") = "range.min" /\
  sanitize_lookup "range__min" <> (String.concat "." (split_dunder "range__min"), "must") /\
  is_operator (List.last (split_dunder "must__gt") "") = true /\
  sanitize_lookup "must__gt" = ("", "gt") /\
  String.concat "." (removelast (split_dunder "must__gt")) = "must" /\
  sanitize_lookup "must__gt"
  <> (String.concat "." (removelast (split_dunder "must__gt")), "gt").
Proof. conj_compute. Qed.

Lemma sanitize_lookup_drops_operator_segments_witness :
  split_dunder "date_joined_exp__iso__isnull" = ["date_joined_exp"; "iso"] ++ ["isnull"] /\
  Forall (fun word => negb (is_operator word) = true) ["date_joined_exp"; "iso"] /\
  sanitize_lookup "date_joined_exp__iso__isnull" = ("date_joined_exp.iso", "isnull").
Proof.
  assert (Hs : split_dunder "date_joined_exp__iso__isnull"
               = ["date_joined_exp"; "iso"] ++ ["isnull"]) by by_compute.
  assert (Hall : Forall (fun word => negb (is_operator word) = true) ["date_joined_exp"; "iso"])
    by (repeat constructor).
  destruct (sanitize_lookup_drops_operator_segments _ _ _ Hs) as (_ & _ & Hpath).
  split; [exact Hs|]. split; [exact Hall|]. exact (Hpath Hall).
Defined.


Lemma compiled_body_seed_witness :
  _query (set_query "john" test_cursor) <> "" /\
  _query test_cursor = "" /\
  make_search_body nested_update_spec (set_query "john" test_cursor) []
  = inr (BDict [("query", BDict [("bool", BDict
           [("must", BList [BDict [("multi_match",
               BDict [("query", BStr "john");
                      ("fields", BList [BStr "first_name"; BStr "last_name"]);
                      ("fuzziness", BVal (PFloat (1 # 2)))])]])])])]) /\
  make_search_body nested_update_spec test_cursor []
  = inr (BDict [("query", BDict [("bool", BDict
           [("must", BList [BDict [("match_all", BDict [])]])])])]).
Proof.
  assert (Hq : _query (set_query "john" test_cursor) <> "") by discriminate.
  assert (He : _query test_cursor = "") by reflexivity.
  destruct (compiled_body_seed nested_update_spec (set_query "john" test_cursor) [])
    as (Hmulti & _).
  destruct (compiled_body_seed nested_update_spec test_cursor []) as (_ & Hall).
  split; [exact Hq|]. split; [exact He|].
  split; [exact (proj2 (Hmulti Hq))|exact (Hall He)].
Defined.

(** ** Further properties of the methods *)

(** Run the next assignment to an object of the store. *)
Ltac assign :=
  match goal with
  | |- context [modify_cursor ?a ?f ?w] =>
      erewrite (modify_cursor_run w a _ f)
        by (cbn [cursors with_cursors with_search_log with_dicts with_count_log];
            first [ eassumption
                  | apply list_lookup_insert_eq; rewrite ?length_insert;
                    first [ assumption | eapply lookup_lt_Some; eassumption ] ]);
      cbn [cursors with_cursors with_search_log with_dicts with_count_log
           dicts search_log count_log]
  end.

(** ** What the compiler and [exclude] can raise *)

Lemma is_operator_cases (op : string) :
  is_operator op = true ->
  op = "must" \/ op = "must_not" \/ op = "should" \/ op = "range" \/ op = "gt" \/
  op = "lt" \/ op = "gte" \/ op = "lte" \/ op = "exists" \/ op = "isnull".
Proof.
  unfold is_operator, str_in, valid_operators. cbn [existsb].
  rewrite !orb_true_iff, !String.eqb_eq. intuition discriminate.
Qed.

(** The operator of a parsed lookup is always one of the vocabulary. *)
Lemma sanitize_lookup_operator_valid (lookup : string) :
  is_operator (snd (sanitize_lookup lookup)) = true.
Proof.
  unfold sanitize_lookup. cbn [snd].
  destruct (is_operator (List.last (split_dunder lookup) "")) eqn:E; [exact E|reflexivity].
Qed.

Lemma mapping_type_is_error (mapping : dict (option string)) (field_ ty : string) (e : exn) :
  mapping_type_is mapping field_ ty = inl e -> e = KeyError.
Proof.
  unfold mapping_type_is. destruct (dict_get field_ mapping) as [[t|]|]; congruence.
Qed.

Lemma subscript_raises (v : pyval) (i : nat) (e : exn) :
  subscript v i = inl e -> subscript_error e.
Proof.
  unfold subscript, subscript_error. destruct v; try (intros [= <-]; auto).
  - destruct (String.get i s); intros [= <-]; auto.
  - destruct (items !! i); intros [= <-]; auto.
Qed.

Section Errors.

Context (es : backend).
Context (nested_update : dict body -> dict body -> dict body).

Local Open Scope method_scope.

(** What one entry of the filters can make the compiler raise. *)
Lemma filter_clause_raises (mapping : dict (option string)) (lookup : string) (value : pyval)
  (e : exn) :
  filter_clause mapping lookup value = inl e ->
  e = KeyError \/ (snd (sanitize_lookup lookup) = "range" /\ subscript_error e).
Proof.
  pose proof (sanitize_lookup_operator_valid lookup) as Hop.
  unfold filter_clause. destruct (sanitize_lookup lookup) as [field op]. cbn [snd] in *.
  unfold bind_exn.
  destruct (mapping_type_is mapping (before_dot field) "nested") as [e0|is_nested] eqn:Hn.
  { intros [= <-]. left. eapply mapping_type_is_error, Hn. }
  set (fv := match value with
             | PModel pk => if is_nested then (field +:+ ".id", PInt pk) else (field, value)
             | _ => (field, value)
             end).
  destruct fv as [field_name value'].
  apply is_operator_cases in Hop.
  destruct Hop as [->|[->|[->|[->|[->|[->|[->|[->|[->| ->]]]]]]]]]; cbn [str_in existsb String.eqb Ascii.eqb Bool.eqb orb];
    try (destruct (mapping_type_is mapping (before_dot field) "text") as [e1|is_text] eqn:Ht;
         [intros [= <-]; left; eapply mapping_type_is_error, Ht|];
         destruct is_nested; discriminate);
    try (destruct is_nested; discriminate);
    try (destruct (truthy _); destruct is_nested; discriminate).
  destruct (subscript _ 0) as [e0|lo] eqn:H0;
    [intros [= <-]; right; split; [reflexivity|eapply subscript_raises, H0]|].
  destruct (subscript _ 1) as [e1|hi] eqn:H1;
    [intros [= <-]; right; split; [reflexivity|eapply subscript_raises, H1]|].
  destruct is_nested; discriminate.
Qed.

Lemma merge_filters_raises (mapping : dict (option string)) (items : list (string * pyval))
  (search : dict body) (e : exn) :
  merge_filters nested_update mapping search items = inl e ->
  e = KeyError \/ subscript_error e.
Proof.
  revert search. induction items as [|[lookup value] items IH]; intros search; [discriminate|].
  cbn [merge_filters]. unfold bind_exn.
  destruct (filter_clause mapping lookup value) as [e0|filtr] eqn:Hf.
  - intros [= <-]. destruct (filter_clause_raises _ _ _ _ Hf) as [->|[_ H]]; auto.
  - apply IH.
Qed.

(** X1: compiling never raises the [ValueError] of an unrecognized lookup:
    the parser only hands out operators of the vocabulary, so the last
    branch of the compiler is dead.  What compiling can raise is a
    [KeyError] (a mapping entry without a type) and the [TypeError] or
    [IndexError] of a range value that is not a pair. *)
Theorem make_search_body_never_value_error (c : cursor) (flt : dict pyval) (e : exn) :
  make_search_body nested_update c flt = inl e ->
  e <> ValueError /\ (e = KeyError \/ e = TypeError \/ e = IndexError).
Proof.
  unfold make_search_body, bind_exn.
  destruct (merge_filters _ _ _ _) as [e0|search] eqn:Hm; [|discriminate].
  intros [= <-]. destruct (merge_filters_raises _ _ _ _ Hm) as [->|[->| ->]];
    split; auto; discriminate.
Qed.

(** What one turn of the loop of [exclude] can raise. *)
Lemma exclude_entry_raises (filters : dict pyval) (lookup : string) (value : pyval) (e : exn) :
  exclude_entry filters lookup value = inl e ->
  snd (sanitize_lookup lookup) = "range" /\ subscript_error e.
Proof.
  pose proof (sanitize_lookup_operator_valid lookup) as Hop.
  unfold exclude_entry. destruct (sanitize_lookup lookup) as [field op]. cbn [snd] in *.
  apply is_operator_cases in Hop.
  destruct Hop as [->|[->|[->|[->|[->|[->|[->|[->|[->| ->]]]]]]]]]; try discriminate.
  cbn. unfold bind_exn.
  destruct (subscript value 1) as [e1|hi] eqn:H1;
    [intros [= <-]; split; [reflexivity|eapply subscript_raises, H1]|].
  destruct (subscript value 0) as [e0|lo] eqn:H0;
    [intros [= <-]; split; [reflexivity|eapply subscript_raises, H0]|].
  discriminate.
Qed.

Lemma exclude_filters_raises (kwargs : list (string * pyval)) (filters : dict pyval) (e : exn) :
  exclude_filters filters kwargs = inl e ->
  subscript_error e /\
  Exists (fun kv => snd (sanitize_lookup (fst kv)) = "range") kwargs.
Proof.
  revert filters. induction kwargs as [|[lookup value] kwargs IH]; intros filters;
    [discriminate|].
  cbn [exclude_filters]. unfold bind_exn.
  destruct (exclude_entry filters lookup value) as [e0|filters'] eqn:He.
  - intros [= <-]. destruct (exclude_entry_raises _ _ _ _ He) as [Hr Herr].
    split; [exact Herr|]. now apply Exists_cons_hd.
  - intros H. destruct (IH _ H) as [Herr Hex]. split; [exact Herr|]. now apply Exists_cons_tl.
Qed.

(** X2: [exclude] never raises [NotImplementedError]: every operator the
    parser hands out has a branch before the last one.  On a query set of
    the store the call can only fail while swapping the bounds of a range
    lookup whose value is not a pair, with the [TypeError] or [IndexError]
    of the subscript; the clone has been made by then, and nothing that
    existed has changed. *)
Theorem exclude_never_not_implemented (w : world) (self : ref) (c : cursor) (flt : dict pyval)
  (kwargs : dict pyval) (e : exn) (w' : world) :
  cursors w !! self = Some c ->
  dicts w !! filters c = Some flt ->
  exclude es self kwargs w = (inl e, w') ->
  e <> NotImplementedError /\ subscript_error e /\
  Exists (fun kv => snd (sanitize_lookup (fst kv)) = "range") kwargs /\
  w' = cloned c flt w.
Proof.
  intros Hc Hd. unfold exclude, bind. rewrite (clone_run es _ _ _ _ Hc Hd).
  destruct (exclude_filters [] kwargs) as [e0|filters'] eqn:Hx.
  - cbn [lift raise]. intros [= <- <-].
    destruct (exclude_filters_raises _ _ _ Hx) as [Herr Hex].
    repeat split; auto. destruct Herr as [-> | ->]; discriminate.
  - cbn [lift ret].
    rewrite (get_cursor_run _ _ (clone_of c (S (length (dicts w)))))
      by (cbn; apply lookup_new).
    rewrite (modify_dict_run _ _ flt) by (cbn; apply lookup_new2).
    discriminate.
Qed.

End Errors.

(** ** Dictionaries *)

Lemma dict_get_set_other {V} (k k' : string) (v : V) (d : dict V) :
  String.eqb k k' = false -> dict_get k (dict_set k' v d) = dict_get k d.
Proof.
  intros Hne. induction d as [|[k0 v0] d IH]; cbn.
  - now rewrite Hne.
  - destruct (String.eqb k' k0) eqn:E; cbn.
    + apply String.eqb_eq in E. subst k0. now rewrite Hne.
    + destruct (String.eqb k k0); [reflexivity|exact IH].
Qed.

Lemma dict_get_absent {V} (k : string) (d : dict V) :
  ~ In k (map fst d) -> dict_get k d = None.
Proof.
  induction d as [|[k0 v0] d IH]; cbn; [reflexivity|].
  intros Hn. destruct (String.eqb k k0) eqn:E.
  - apply String.eqb_eq in E. subst. exfalso. apply Hn. now left.
  - apply IH. intros Hin. apply Hn. now right.
Qed.

(** [d.update(u)] read back: the entries of [u] win, the others stay. *)
Lemma dict_get_update {V} (k : string) (u : dict V) :
  unique_keys u ->
  forall d : dict V,
    dict_get k (dict_update d u)
    = match dict_get k u with
      | Some v => Some v
      | None => dict_get k d
      end.
Proof.
  unfold unique_keys, dict_update.
  induction u as [|[k0 v0] u IH]; intros Hu d; [reflexivity|].
  cbn [map fst] in Hu. apply List.NoDup_cons_iff in Hu as [Hk0 Hu].
  cbn [fold_left fst snd dict_get]. rewrite (IH Hu).
  destruct (String.eqb k k0) eqn:E.
  - apply String.eqb_eq in E. subst k0.
    now rewrite (dict_get_absent _ _ Hk0), dict_get_set.
  - destruct (dict_get k u); [reflexivity|]. now apply dict_get_set_other.
Qed.

Lemma str_in_In (w : string) (l : list string) : str_in w l = true <-> In w l.
Proof.
  unfold str_in. rewrite existsb_exists. split.
  - intros (x & Hin & Heq). apply String.eqb_eq in Heq. now subst.
  - intros H. exists w. split; [exact H|apply String.eqb_refl].
Qed.

(** A dictionary filled by a loop [for x in l: d[x] = g(x)], read back. *)
Lemma dict_get_fold_set {V} (g : string -> V) (f : string) (l : list string) :
  forall acc : dict V,
    dict_get f (fold_left (fun a x => dict_set x (g x) a) l acc)
    = if str_in f l then Some (g f) else dict_get f acc.
Proof.
  induction l as [|x l IH]; intros acc; [reflexivity|].
  cbn [fold_left]. rewrite IH. unfold str_in. cbn [existsb]. fold (str_in f l).
  destruct (str_in f l); [now rewrite orb_true_r|]. rewrite orb_false_r.
  destruct (String.eqb f x) eqn:E.
  - apply String.eqb_eq in E. subst. apply dict_get_set.
  - now apply dict_get_set_other.
Qed.

(** ** The request *)

Section Request.

Context (es : backend).
Context (nested_update : dict body -> dict body -> dict body).

Local Open Scope method_scope.

Lemma make_search_body_shape (c : cursor) (flt : dict pyval) (b : body) :
  make_search_body nested_update c flt = inr b ->
  exists search, b = BDict [("query", BDict [("bool", BDict search)])].
Proof.
  unfold make_search_body, bind_exn.
  destruct (merge_filters _ _ _ _) as [e|search]; [discriminate|].
  intros [= <-]. now exists search.
Qed.

(** X3: the keyword arguments of a standard search.  They are the index
    (as a one-element list), the body, [from_] only when the start of the
    window is not 0, and [size] only when the stop of the window is set
    and not 0, when it is the stop minus the start; [from] is never
    passed under that name, and nothing else is passed. *)
Theorem search_request_parameters (c : cursor) (flt : dict pyval)
  (req : dict body * dict body) :
  build_search_request nested_update c flt = inr req ->
  mode c = MODE_SEARCH ->
  dict_get "index" (fst req) = Some (BList [BStr (index c)]) /\
  dict_get "body" (fst req) = Some (BDict (snd req)) /\
  dict_get "from" (fst req) = None /\
  dict_get "from_" (fst req) = (if _start c =? 0 then None else Some (BInt (_start c))) /\
  dict_get "size" (fst req)
  = match _stop c with
    | Some stop => if stop =? 0 then None else Some (BInt (stop - _start c))
    | None => None
    end /\
  Forall (fun kv => In (fst kv) ["index"; "size"; "body"; "from_"]) (fst req).
Proof.
  intros Hreq Hm. unfold build_search_request, bind_exn in Hreq.
  destruct (make_search_body _ _ _) as [e|compiled]; [discriminate|].
  destruct (if truthy_seq (ordering c) then _ else _) as [e|body3]; [discriminate|].
  rewrite Hm in Hreq. unfold truthy_int in Hreq.
  destruct (_start c =? 0) eqn:Hs; destruct (_stop c) as [stop|];
    try destruct (stop =? 0) eqn:Ht; cbn in Hreq; injection Hreq as <-;
    (split; [reflexivity|]); (split; [reflexivity|]); (split; [reflexivity|]);
    (split; [reflexivity|]); (split; [reflexivity|]);
    cbn [fst]; repeat (apply List.Forall_cons; [cbn; tauto|]); apply List.Forall_nil.
Qed.

(** The keyword arguments of a more-like-this search.  The window is
    passed as [from] and [size] (never as [from_]), and [more_like_this]
    carries the fields, the id of the document and the two term
    frequencies given to [mlt], with the defaults [_all], 1 and 10 for
    those that were not given. *)
Lemma mlt_request_parameters (c : cursor) (flt kw : dict pyval)
  (req : dict body * dict body) :
  build_search_request nested_update c flt = inr req ->
  mode c = MODE_MLT ->
  mlt_kwargs c = Some kw ->
  dict_get "more_like_this" (fst req)
  = Some (BDict [("fields", mlt_get kw "fields" (PStr "_all"));
                 ("like", BList [BDict [("_id", mlt_get kw "id" PNone)]]);
                 ("min_term_frequency", mlt_get kw "min_term_frequency" (PInt 1));
                 ("max_term_frequency", mlt_get kw "max_term_frequency" (PInt 10))]) /\
  dict_get "from_" (fst req) = None /\
  dict_get "from" (fst req) = (if _start c =? 0 then None else Some (BInt (_start c))) /\
  dict_get "body" (fst req) = Some (BDict (snd req)).
Proof.
  intros Hreq Hm Hkw. unfold build_search_request, bind_exn in Hreq.
  destruct (make_search_body _ _ _) as [e|compiled]; [discriminate|].
  destruct (if truthy_seq (ordering c) then _ else _) as [e|body3]; [discriminate|].
  rewrite Hm, Hkw in Hreq. unfold truthy_int in Hreq.
  destruct (_start c =? 0) eqn:Hs; destruct (_stop c) as [stop|];
    try destruct (stop =? 0) eqn:Ht; cbn in Hreq; injection Hreq as <-;
    (split; [reflexivity|]); (split; [reflexivity|]); split; reflexivity.
Qed.

Lemma mlt_get_id (id : pyval) (kw : dict pyval) (k : string) (default : pyval) :
  String.eqb k "id" = false ->
  mlt_get (dict_set "id" id kw) k default = mlt_get kw k default.
Proof. intros H. unfold mlt_get. now rewrite dict_get_set_other. Qed.

Lemma mlt_get_self (id : pyval) (kw : dict pyval) (default : pyval) :
  mlt_get (dict_set "id" id kw) "id" default = BVal id.
Proof. unfold mlt_get. now rewrite dict_get_set. Qed.

(** X4: [mlt] works on the query set itself: it returns the object it was
    called on, with the mode switched and the keyword arguments bound
    together with the id; the cache and the total stay.  The request built
    from it afterwards asks for documents like the one with that id. *)
Theorem mlt_switches_mode_in_place (w : world) (self : ref) (c : cursor) (id : pyval)
  (kw flt : dict pyval) (req : dict body * dict body) :
  cursors w !! self = Some c ->
  let c' := set_mlt_kwargs (Some (dict_set "id" id kw)) (set_mode MODE_MLT c) in
  mlt self id kw w = (inr self, with_cursors (<[self := c']> (cursors w)) w) /\
  _result_cache c' = _result_cache c /\ _total c' = _total c /\
  (build_search_request nested_update c' flt = inr req ->
   dict_get "more_like_this" (fst req)
   = Some (BDict [("fields", mlt_get kw "fields" (PStr "_all"));
                  ("like", BList [BDict [("_id", BVal id)]]);
                  ("min_term_frequency", mlt_get kw "min_term_frequency" (PInt 1));
                  ("max_term_frequency", mlt_get kw "max_term_frequency" (PInt 10))])).
Proof.
  intros Hc c'. split; [|split; [reflexivity|split; [reflexivity|]]].
  - unfold mlt, bind. repeat assign. now rewrite list_insert_insert_eq.
  - intros Hreq.
    destruct (mlt_request_parameters c' flt (dict_set "id" id kw) req Hreq eq_refl eq_refl)
      as (Hmlt & _).
    rewrite Hmlt, mlt_get_self, !mlt_get_id by reflexivity. reflexivity.
Qed.

End Request.

(** ** The body of the request *)

Lemma sort_entry_of (f : string) : f <> "" -> sort_entry f = inr (sort_of f).
Proof.
  destruct f as [|c rest]; [congruence|]. intros _. unfold sort_entry.
  destruct (Ascii.eqb c "-") eqn:E.
  - apply Ascii.eqb_eq in E. now subst.
  - destruct c as [[] [] [] [] [] [] [] []]; try reflexivity. discriminate E.
Qed.

Lemma sort_entries_result (fs : list string) (l : list body) :
  sort_entries fs = inr l -> l = map sort_of fs /\ Forall (fun f => f <> "") fs.
Proof.
  revert l. induction fs as [|f fs IH]; intros l.
  - intros [= <-]. now split.
  - cbn [sort_entries]. unfold bind_exn.
    destruct (sort_entry f) as [e|x] eqn:Hf; [discriminate|].
    destruct (sort_entries fs) as [e|xs]; [discriminate|].
    intros [= <-]. destruct (IH xs eq_refl) as [-> Hall].
    assert (Hne : f <> "") by (intros ->; discriminate Hf).
    rewrite (sort_entry_of f Hne) in Hf. injection Hf as <-.
    split; [reflexivity|now constructor].
Qed.

Lemma sort_entries_empty_name (fs : list string) :
  In "" fs -> sort_entries fs = inl IndexError.
Proof.
  induction fs as [|f fs IH]; [intros []|].
  intros [->|Hin]; [reflexivity|].
  cbn [sort_entries]. unfold bind_exn.
  destruct f as [|c rest]; [reflexivity|].
  cbn [sort_entry]. destruct (Ascii.eqb c "-"); now rewrite (IH Hin).
Qed.

Section RequestBody.

Context (nested_update : dict body -> dict body -> dict body).

(** The body of a request that could be built. *)
Lemma request_body (c : cursor) (flt : dict pyval) (req : dict body * dict body) :
  build_search_request nested_update c flt = inr req ->
  exists compiled body3,
    make_search_body nested_update c flt = inr compiled /\
    body_before_extra c compiled = inr body3 /\
    snd req = if truthy_seq (extra_body c)
              then dict_update body3 (opt_list (extra_body c))
              else body3.
Proof.
  unfold build_search_request, body_before_extra, bind_exn. cbv zeta.
  destruct (make_search_body nested_update c flt) as [e|compiled]; [discriminate|].
  destruct (if truthy_seq (ordering c) then _ else _) as [e|body3] eqn:H3; [discriminate|].
  intros Hreq. exists compiled, body3. split; [reflexivity|]. split; [exact H3|].
  destruct (mode c); [|destruct (mlt_kwargs c); [|discriminate]].
  - destruct (dict_get "from" _); now injection Hreq as <-.
  - now injection Hreq as <-.
Qed.

(** X5: the sort of the request.  With an ordering of at least one
    field, the body asks for one sort entry per field, ascending on the
    field or descending on the field named after a leading [-], in the
    order given and with the relevance score last; without an ordering no
    sort is asked for.  (An extra body may replace the key; there is none
    here.) *)
Theorem request_sort (c : cursor) (flt : dict pyval) (req : dict body * dict body) :
  build_search_request nested_update c flt = inr req ->
  truthy_seq (extra_body c) = false ->
  dict_get "sort" (snd req)
  = match ordering c with
    | Some (f :: fs) => Some (BList (map sort_of (f :: fs) ++ [BStr "_score"]))
    | _ => None
    end.
Proof.
  intros Hreq Hex.
  destruct (request_body c flt req Hreq) as (compiled & body3 & Hb & H3 & ->).
  rewrite Hex. destruct (make_search_body_shape _ _ _ _ Hb) as [search ->].
  unfold body_before_extra, bind_exn in H3.
  destruct (ordering c) as [[|f fs]|] eqn:Ho; cbv zeta in H3;
    cbn [truthy_seq opt_list] in H3.
  - injection H3 as <-.
    destruct (truthy_seq (suggest_fields c)); destruct (truthy_seq (facets_fields c));
      reflexivity.
  - destruct (sort_entries (f :: fs)) as [e|sorts] eqn:Hs; [discriminate|].
    apply sort_entries_result in Hs as [-> _]. injection H3 as <-. apply dict_get_set.
  - injection H3 as <-.
    destruct (truthy_seq (suggest_fields c)); destruct (truthy_seq (facets_fields c));
      reflexivity.
Qed.

(** X6: an ordering field that is the empty string makes the search
    fail with [IndexError] (the first character of the field is read)
    before anything is sent, whenever the query itself compiles. *)
Theorem empty_ordering_field_raises (c : cursor) (flt : dict pyval) (fs : list string)
  (compiled : body) :
  ordering c = Some fs ->
  In "" fs ->
  make_search_body nested_update c flt = inr compiled ->
  build_search_request nested_update c flt = inl IndexError.
Proof.
  intros Ho Hin Hb. unfold build_search_request, bind_exn. rewrite Hb, Ho.
  destruct fs as [|f fs]; [destruct Hin|].
  cbn [truthy_seq opt_list]. now rewrite (sort_entries_empty_name _ Hin).
Qed.

(** X7: the extra body is merged last and wins.  Every key of the
    extra body is in the body of the request with the value of the extra
    body, also when the compiled body had the key; every other key keeps
    the value compiled for it. *)
Theorem extra_body_overrides (c : cursor) (flt : dict pyval) (req : dict body * dict body)
  (ex : dict body) :
  build_search_request nested_update c flt = inr req ->
  extra_body c = Some ex ->
  unique_keys ex ->
  exists compiled body3,
    make_search_body nested_update c flt = inr compiled /\
    body_before_extra c compiled = inr body3 /\
    forall k, dict_get k (snd req)
              = match dict_get k ex with
                | Some v => Some v
                | None => dict_get k body3
                end.
Proof.
  intros Hreq Hex Hu.
  destruct (request_body c flt req Hreq) as (compiled & body3 & Hb & H3 & ->).
  exists compiled, body3. split; [exact Hb|]. split; [exact H3|].
  intros k. rewrite Hex. destruct ex as [|kv ex]; [reflexivity|].
  cbn [truthy_seq opt_list]. now apply dict_get_update.
Qed.

End RequestBody.

(** X8: the aggregations asked for by [facet(fields, limit)].  Every
    field of the list has its terms aggregation; the limit, when it is
    set and not 0, is the size of the aggregation of the last field of
    the list only, and the others have no size. *)
Theorem facet_limit_on_last_field_only (fields : list string) (limit : option Z) (f : string) :
  In f fields ->
  dict_get f (make_aggs fields limit)
  = Some (terms_agg f
            (match limit with
             | Some n => if negb (n =? 0) && String.eqb f (List.last fields "")
                         then [("size", BInt n)]
                         else []
             | None => []
             end)).
Proof.
  intros Hin. apply str_in_In in Hin. unfold make_aggs.
  assert (Hall : dict_get f (fold_left (fun aggs field => dict_set field (terms_agg field []) aggs)
                               fields [])
                 = Some (terms_agg f []))
    by (now rewrite (dict_get_fold_set (fun field => terms_agg field [])), Hin).
  destruct limit as [n|]; [|exact Hall].
  destruct (n =? 0); [exact Hall|]. cbn [negb andb].
  destruct (String.eqb f (List.last fields "")) eqn:E.
  - apply String.eqb_eq in E. rewrite <- E. apply dict_get_set.
  - now rewrite dict_get_set_other.
Qed.

(** X9: the suggestions asked for by [suggest(fields, limit)].  Every
    field of the list has a term suggestion seeded with the query text,
    each one with the limit as its size when the limit is set and not 0;
    no other field has one. *)
Theorem suggest_request_per_field (query : string) (fields : list string) (limit : option Z)
  (f : string) :
  dict_get f (make_suggest query fields limit)
  = if str_in f fields
    then Some (BDict [("text", BStr query);
                      ("term", BDict (("field", BStr f) ::
                                      match limit with
                                      | Some n => if n =? 0 then [] else [("size", BInt n)]
                                      | None => []
                                      end))])
    else None.
Proof.
  unfold make_suggest.
  rewrite (dict_get_fold_set
             (fun field_name =>
                BDict [("text", BStr query);
                       ("term", BDict (("field", BStr field_name) ::
                                       match limit with
                                       | Some n => if negb (n =? 0) then [("size", BInt n)] else []
                                       | None => []
                                       end))])).
  destruct (str_in f fields); [|reflexivity].
  destruct limit as [n|]; [|reflexivity]. now destruct (n =? 0).
Qed.

(** ** Terminal operations and chaining *)

Section Operations.

Context (es : backend).
Context (nested_update : dict body -> dict body -> dict body).

Local Open Scope method_scope.

(** What [qs[ndx]] returns and leaves behind when the search goes through. *)
Lemma getitem_result (w : world) (self : ref) (c : cursor) (ndx : subscript_arg)
  (flt : dict pyval) (req : dict body * dict body) :
  cursors w !! self = Some c ->
  dicts w !! filters c = Some flt ->
  build_search_request nested_update (window ndx c) flt = inr req ->
  facets_available (window ndx c) (es_search es (fst req)) = true ->
  __getitem__ es nested_update self ndx w
  = (match ndx with
     | Int _ =>
         match rows_of c (es_search es (fst req)) with
         | x :: _ => inr (Row x)
         | [] => inl IndexError
         end
     | Slice _ _ => inr (Rows (rows_of c (es_search es (fst req))))
     end,
     searched self (window ndx c) req (es_search es (fst req)) w).
Proof.
  intros Hc Hd Hreq Hf. rewrite (getitem_run es nested_update _ _ _ _ Hc).
  set (w1 := with_cursors _ w).
  assert (Hc1 : cursors w1 !! self = Some (window ndx c))
    by (subst w1; cbn; eapply lookup_updated, Hc).
  assert (He : is_evaluated (window ndx c) = false) by (now destruct ndx).
  assert (Hd1 : dicts w1 !! filters (window ndx c) = Some flt) by (now destruct ndx).
  unfold bind at 1.
  rewrite (do_search_unevaluated es nested_update w1 self _ flt req Hc1 He Hd1 Hreq Hf).
  assert (Hw : searched self (window ndx c) req (es_search es (fst req)) w1
               = searched self (window ndx c) req (es_search es (fst req)) w).
  { subst w1. unfold searched. cbn. now rewrite list_insert_insert_eq. }
  rewrite Hw. unfold bind.
  rewrite (get_cursor_run _ self
             (store_response (window ndx c) req (es_search es (fst req))))
    by (cbn; eapply lookup_updated, Hc).
  assert (Hcache : _result_cache (store_response (window ndx c) req (es_search es (fst req)))
                   = rows_of c (es_search es (fst req))) by (now destruct ndx).
  rewrite Hcache.
  destruct ndx; [destruct (rows_of c _)|]; reflexivity.
Qed.

(** X10: what indexing returns.  [qs[n]] returns the first row of the
    response to the windowed search, and raises [IndexError] exactly when
    that response has no hit; [qs[a:b]] returns all the rows of the
    response, as a list.  In both cases the rows are deserialized when the
    flag of the query set is set and raw otherwise. *)
Theorem getitem_returns_rows_of_window (w : world) (self : ref) (c : cursor)
  (flt : dict pyval) :
  cursors w !! self = Some c ->
  dicts w !! filters c = Some flt ->
  (forall n req,
      build_search_request nested_update (window (Int n) c) flt = inr req ->
      facets_available (window (Int n) c) (es_search es (fst req)) = true ->
      fst (__getitem__ es nested_update self (Int n) w)
      = match hits (es_search es (fst req)) with
        | [] => inl IndexError
        | src :: _ =>
            inr (Row (if _deserialize c
                      then ObjRow (es_deserialize (model c) src)
                      else RawRow src))
        end) /\
  (forall start stop req,
      build_search_request nested_update (window (Slice start stop) c) flt = inr req ->
      facets_available (window (Slice start stop) c) (es_search es (fst req)) = true ->
      fst (__getitem__ es nested_update self (Slice start stop) w)
      = inr (Rows (if _deserialize c
                   then map (fun src => ObjRow (es_deserialize (model c) src))
                          (hits (es_search es (fst req)))
                   else map RawRow (hits (es_search es (fst req)))))).
Proof.
  intros Hc Hd. split.
  - intros n req Hreq Hf. rewrite (getitem_result _ _ _ _ _ _ Hc Hd Hreq Hf).
    cbn [fst]. unfold rows_of.
    destruct (_deserialize c); now destruct (hits (es_search es (fst req))).
  - intros start stop req Hreq Hf. now rewrite (getitem_result _ _ _ _ _ _ Hc Hd Hreq Hf).
Qed.

(** Assignments to the object a clone has just become. *)
Lemma modify_new (cs : list cursor) (x : cursor) (f : cursor -> cursor) (w : world) :
  modify_cursor (length cs) f (with_cursors (cs ++ [x]) w)
  = (inr tt, with_cursors (cs ++ [f x]) w).
Proof.
  unfold modify_cursor. cbn [cursors with_cursors]. now rewrite lookup_new, insert_new.
Qed.

Lemma clone_then (A : Type) (w : world) (self : ref) (c : cursor) (flt : dict pyval)
  (k : ref -> M A) :
  cursors w !! self = Some c ->
  dicts w !! filters c = Some flt ->
  (clone <~ _clone es self ;; k clone) w = k (length (cursors w)) (cloned c flt w).
Proof. intros Hc Hd. unfold bind. now rewrite (clone_run es _ _ _ _ Hc Hd). Qed.

(** X11: [order_by], [facet], [suggest], [extra] and [all] return a new
    object, a clone of the one they are called on with nothing changed but
    the attributes the method binds ([all] binds none) and with an empty
    cache and no total; the clone has a filters dictionary of its own with
    the same content.  Every object and every dictionary that existed
    stays as it was, and no request is sent. *)
Theorem chaining_methods_only_allocate (w : world) (self : ref) (c : cursor) (flt : dict pyval) :
  cursors w !! self = Some c ->
  dicts w !! filters c = Some flt ->
  (forall fields,
      order_by es self fields w
      = (inr (length (cursors w)), chained (set_ordering (Some fields)) c flt w)) /\
  (forall fields limit use_globals,
      facet es self fields limit use_globals w
      = (inr (length (cursors w)),
         chained (fun x => set_global_facets (Some use_globals)
                             (set_facets_limit limit (set_facets_fields (Some fields) x)))
           c flt w)) /\
  (forall fields limit,
      suggest es self fields limit w
      = (inr (length (cursors w)),
         chained (fun x => set_suggest_limit limit (set_suggest_fields (Some fields) x))
           c flt w)) /\
  (forall b,
      extra es self b w
      = (inr (length (cursors w)), chained (set_extra_body (Some b)) c flt w)) /\
  all es self w = (inr (length (cursors w)), chained (fun x => x) c flt w) /\
  (forall set,
      (forall a x, cursors w !! a = Some x -> cursors (chained set c flt w) !! a = Some x) /\
      (forall a d, dicts w !! a = Some d -> dicts (chained set c flt w) !! a = Some d) /\
      search_log (chained set c flt w) = search_log w /\
      count_log (chained set c flt w) = count_log w /\
      _result_cache (clone_of c (S (length (dicts w)))) = [] /\
      _total (clone_of c (S (length (dicts w)))) = None).
Proof.
  intros Hc Hd. repeat split.
  - intros fields. unfold order_by. rewrite (clone_then _ _ _ _ _ _ Hc Hd).
    unfold bind, cloned. now rewrite modify_new.
  - intros fields limit use_globals. unfold facet. rewrite (clone_then _ _ _ _ _ _ Hc Hd).
    unfold bind, cloned. now rewrite !modify_new.
  - intros fields limit. unfold suggest. rewrite (clone_then _ _ _ _ _ _ Hc Hd).
    unfold bind, cloned. now rewrite !modify_new.
  - intros b. unfold extra. rewrite (clone_then _ _ _ _ _ _ Hc Hd).
    unfold bind, cloned. now rewrite modify_new.
  - unfold all. now rewrite (clone_run es _ _ _ _ Hc Hd).
  - intros a x Hx. cbn. now apply lookup_app_l_Some.
  - intros a d Hx. cbn. now apply lookup_app_l_Some.
Qed.

(** X12: [search] checks its arguments before it clones.  Without any
    argument, or with more than one positional argument, it raises
    [TypeError] and the world is as before.  With one text it returns a
    clone with that query text, and with keyword arguments a clone whose
    filters are updated with them; the original is untouched. *)
Theorem search_checks_arguments_first (w : world) (self : ref) (c : cursor) (flt : dict pyval) :
  cursors w !! self = Some c ->
  dicts w !! filters c = Some flt ->
  search es self [] [] w = (inl TypeError, w) /\
  (forall q q' args kwargs, search es self (q :: q' :: args) kwargs w = (inl TypeError, w)) /\
  (forall q kwargs,
      search es self [q] kwargs w
      = (inr (length (cursors w)), chained (set_query q) c (dict_update flt kwargs) w)) /\
  (forall kv kwargs,
      search es self [] (kv :: kwargs) w
      = (inr (length (cursors w)), chained (fun x => x) c (dict_update flt (kv :: kwargs)) w)).
Proof.
  intros Hc Hd. split; [reflexivity|]. split; [intros q q' args [|kv kwargs]; reflexivity|].
  split.
  - intros q kwargs.
    assert (Hrun : search es self [q] kwargs w
                   = (clone <~ _clone es self ;;
                      modify_cursor clone (set_query q) ;;;
                      match kwargs with
                      | _ :: _ =>
                          c' <~ get_cursor clone ;;
                          modify_dict (filters c') (fun d => dict_update d kwargs)
                      | [] => ret tt
                      end ;;;
                      ret clone) w) by (now destruct kwargs).
    rewrite Hrun, (clone_then _ _ _ _ _ _ Hc Hd). unfold bind, cloned.
    rewrite modify_new. destruct kwargs as [|kv kwargs]; [reflexivity|].
    rewrite (get_cursor_run _ _ (set_query q (clone_of c (S (length (dicts w))))))
      by (cbn; apply lookup_new).
    rewrite (modify_dict_run _ _ flt) by (cbn; apply lookup_new2).
    unfold ret, chained. cbn. now rewrite insert_new2.
  - intros kv kwargs. unfold search. rewrite (clone_then _ _ _ _ _ _ Hc Hd).
    unfold bind, cloned, ret.
    rewrite (get_cursor_run _ _ (clone_of c (S (length (dicts w)))))
      by (cbn; apply lookup_new).
    rewrite (modify_dict_run _ _ flt) by (cbn; apply lookup_new2).
    unfold chained. cbn. now rewrite insert_new2.
Qed.

End Operations.

(** ** How the operations compose *)

Section Composition.

Context (es : backend).
Context (nested_update : dict body -> dict body -> dict body).

Local Open Scope method_scope.

(** [count()] on a query set of the standard mode without a cached total. *)
Lemma count_requested (w : world) (self : ref) (c : cursor) (flt : dict pyval) (b : body) :
  cursors w !! self = Some c ->
  dicts w !! filters c = Some flt ->
  truthy_int (_total c) = false ->
  mode c = MODE_SEARCH ->
  make_search_body nested_update c flt = inr b ->
  count es nested_update self w
  = (inr (Some (es_count es (index c) (Some b))),
     with_cursors (<[self := set_total (Some (es_count es (index c) (Some b))) c]> (cursors w))
       (with_count_log (count_log w ++ [(index c, Some b)]) w)).
Proof.
  intros Hc Hd Ht Hm Hb. unfold count, bind.
  rewrite (get_cursor_run _ _ _ Hc), Ht, Hm, (get_dict_run _ _ _ Hd), Hb.
  cbn [lift ret]. unfold call_count.
  rewrite (make_search_body_truthy _ _ _ _ Hb).
  now assign.
Qed.

(** X13: a total cached on a query set is not inherited by what is
    derived from it.  Whatever total the original holds, [count()] on
    [qs.filter(...)] in the standard mode sends one count request, with
    the body compiled from the filters of the clone, and returns its
    answer; the original keeps its attributes, and no search is sent. *)
Theorem count_after_filter_asks_again (w : world) (self : ref) (c : cursor)
  (flt kwargs : dict pyval) (b : body) :
  cursors w !! self = Some c ->
  dicts w !! filters c = Some flt ->
  mode c = MODE_SEARCH ->
  make_search_body nested_update c (dict_update flt kwargs) = inr b ->
  exists w',
    (qs <~ filter es self kwargs ;; count es nested_update qs) w
    = (inr (Some (es_count es (index c) (Some b))), w') /\
    count_log w' = count_log w ++ [(index c, Some b)] /\
    search_log w' = search_log w /\
    cursors w' !! self = Some c /\
    dicts w' !! filters c = Some flt.
Proof.
  intros Hc Hd Hm Hb.
  pose proof (lookup_lt_Some _ _ _ Hc) as Hlt.
  unfold bind at 1. rewrite (filter_run es _ _ _ _ kwargs Hc Hd).
  set (d := S (length (dicts w))).
  rewrite (count_requested _ _ (clone_of c d) (dict_update flt kwargs) b);
    [|cbn; apply lookup_new|cbn; apply lookup_new2|reflexivity|exact Hm|exact Hb].
  eexists. split; [reflexivity|]. cbn.
  split; [reflexivity|]. split; [reflexivity|]. split.
  - rewrite list_lookup_insert_ne by lia. now apply lookup_app_l_Some.
  - now apply lookup_app_l_Some.
Qed.


(** X15: setting the deserialize flag on a query set that holds raw
    rows breaks the membership test.  [deserialize()] keeps the cache, so
    [instance in qs] afterwards reads [.id] on a raw row and raises
    [AttributeError]; no request is sent. *)
Theorem deserialize_after_evaluation_breaks_contains (w : world) (self : ref) (c : cursor)
  (src : body) (rest : list row) (inst : instance) :
  cursors w !! self = Some c ->
  _result_cache c = RawRow src :: rest ->
  (deserialize self ;;; __contains__ es nested_update self inst) w
  = (inl AttributeError, with_cursors (<[self := set_deserialize true c]> (cursors w)) w).
Proof.
  intros Hc Hcache. unfold bind at 1. unfold deserialize, bind at 1.
  assign. cbn [ret].
  rewrite (contains_evaluated es nested_update _ self (set_deserialize true c));
    [|cbn; eapply lookup_updated, Hc|now rewrite is_evaluated_cache; cbn; rewrite Hcache].
  cbn [_result_cache _deserialize set_deserialize]. now rewrite Hcache.
Qed.

(** X16: filtering twice is filtering once with both sets of lookups:
    the filters of [qs.filter(kw1).filter(kw2)] are those of [qs] updated
    with [kw1] and then [kw2], so a lookup given again replaces the value
    given before. *)
Theorem filter_twice_updates_in_order (w : world) (self : ref) (c : cursor)
  (flt kw1 kw2 : dict pyval) :
  cursors w !! self = Some c ->
  dicts w !! filters c = Some flt ->
  exists w',
    (qs <~ filter es self kw1 ;; filter es qs kw2) w = (inr (S (length (cursors w))), w') /\
    (filters <$> cursors w' !! S (length (cursors w))) = Some (length (dicts w) + 3)%nat /\
    dicts w' !! (length (dicts w) + 3)%nat = Some (dict_update flt (kw1 ++ kw2)) /\
    (forall k v kw, kw2 = kw ++ [(k, v)] ->
       dict_get k (dict_update flt (kw1 ++ kw2)) = Some v).
Proof.
  intros Hc Hd. unfold bind. rewrite (filter_run es _ _ _ _ kw1 Hc Hd).
  set (d := S (length (dicts w))).
  rewrite (filter_run es _ _ (clone_of c d) (dict_update flt kw1) kw2);
    [|cbn; apply lookup_new|cbn; apply lookup_new2].
  eexists. split; [cbn; rewrite length_app; cbn; f_equal; f_equal; lia|].
  assert (Hupd : dict_update (dict_update flt kw1) kw2 = dict_update flt (kw1 ++ kw2))
    by (unfold dict_update; now rewrite fold_left_app).
  split; [|split].
  - cbn. rewrite lookup_app_r by (rewrite length_app; cbn; lia).
    rewrite length_app. cbn.
    replace (S (length (cursors w)) - (length (cursors w) + 1))%nat with 0%nat by lia.
    cbn. f_equal. rewrite length_app. cbn. lia.
  - cbn. rewrite lookup_app_r by (rewrite length_app; cbn; lia).
    rewrite length_app. cbn.
    replace (length (dicts w) + 3 - (length (dicts w) + 2))%nat with 1%nat by lia.
    cbn. now rewrite Hupd.
  - intros k v kw ->. rewrite app_assoc. unfold dict_update.
    rewrite fold_left_app. cbn [fold_left fst snd]. apply dict_get_set.
Qed.

End Composition.

(** ** Printing and completing *)

Section Printing.

Context (es : backend).
Context (nested_update : dict body -> dict body -> dict body).
Context (REPR_OUTPUT_SIZE : Z).

Local Open Scope method_scope.



(** X18: [complete] asks the client for completions of the prefix on
    the field and nothing else: the request has no query, no filter and
    no window of the query set, and no object changes.  When the
    response has no suggestions, or none for the field, the answer is the
    empty list (the [KeyError] is caught); when the suggestions of the
    field are an empty list the [IndexError] of its first element is not
    caught. *)
Theorem complete_ignores_the_query_state (w : world) (self : ref) (c : cursor)
  (field_name query : string) :
  cursors w !! self = Some c ->
  let request := completion_request (index c) field_name query in
  let resp := es_search es request in
  snd (complete es self field_name query w) = with_search_log (search_log w ++ [request]) w /\
  (suggest_payload resp = None ->
   fst (complete es self field_name query w) = inr []) /\
  (forall d, suggest_payload resp = Some (BDict d) -> dict_get field_name d = None ->
   fst (complete es self field_name query w) = inr []) /\
  (forall d, suggest_payload resp = Some (BDict d) ->
   dict_get field_name d = Some (BList []) ->
   fst (complete es self field_name query w) = inl IndexError) /\
  (forall d entry rest options,
   suggest_payload resp = Some (BDict d) ->
   dict_get field_name d = Some (BList (BDict entry :: rest)) ->
   dict_get "options" entry = Some (BList options) ->
   Forall (fun o => exists od t, o = BDict od /\ dict_get "text" od = Some t) options ->
   exists texts,
     fst (complete es self field_name query w) = inr texts /\
     Forall2 (fun o t => exists od, o = BDict od /\ dict_get "text" od = Some t) options texts).
Proof.
  intros Hc request resp.
  assert (Hrun : complete es self field_name query w
                 = match completion_texts resp field_name with
                   | inr texts => (inr texts, with_search_log (search_log w ++ [request]) w)
                   | inl KeyError => (inr [], with_search_log (search_log w ++ [request]) w)
                   | inl e => (inl e, with_search_log (search_log w ++ [request]) w)
                   end).
  { unfold complete, bind. rewrite (get_cursor_run _ _ _ Hc). unfold call_search.
    fold (completion_request (index c) field_name query). fold request. fold resp.
    destruct (completion_texts resp field_name) as [[]|texts]; reflexivity. }
  rewrite Hrun. split; [|split; [|split; [|split]]].
  - destruct (completion_texts resp field_name) as [[]|texts]; reflexivity.
  - intros Hs. unfold completion_texts. now rewrite Hs.
  - intros d Hs Hd. unfold completion_texts, bind_exn. rewrite Hs. cbn. now rewrite Hd.
  - intros d Hs Hd. unfold completion_texts, bind_exn. rewrite Hs. cbn. now rewrite Hd.
  - intros d entry rest options Hs Hd Ho Hall.
    unfold completion_texts, bind_exn. rewrite Hs. cbn. rewrite Hd. cbn. rewrite Ho.
    assert (Htexts : exists texts, option_texts options = inr texts /\
              Forall2 (fun o t => exists od, o = BDict od /\ dict_get "text" od = Some t)
                options texts).
    { clear -Hall. induction Hall as [|o options (od & t & -> & Ht) _ (texts & Hopt & Hrel)].
      - exists []. split; [reflexivity|constructor].
      - exists (t :: texts). cbn [option_texts]. unfold bind_exn. cbn. rewrite Ht, Hopt.
        split; [reflexivity|]. constructor; [now exists od|exact Hrel]. }
    destruct Htexts as (texts & -> & Hrel). now exists texts.
Qed.

End Printing.

(** ** The fragments of the compiled body *)

Lemma nested_is_not_text (mapping : dict (option string)) (field_ : string) :
  mapping_type_is mapping field_ "nested" = inr true ->
  mapping_type_is mapping field_ "text" = inr false.
Proof.
  unfold mapping_type_is. destruct (dict_get field_ mapping) as [[t|]|]; try discriminate.
  intros [= H]. apply String.eqb_eq in H. now subst.
Qed.

(** X19: a lookup without operator, or with [must], [must_not] or
    [should], on a field that is not nested compiles to one clause in the
    bucket of its operator: an analyzed [match] when the mapping types the
    field as text and an exact [term] otherwise, on the dotted path, with
    the value as given (a datetime as its ISO string). *)
Theorem equality_lookup_clause (mapping : dict (option string)) (lookup field op : string)
  (value : pyval) (is_text : bool) :
  sanitize_lookup lookup = (field, op) ->
  op = "must" \/ op = "must_not" \/ op = "should" ->
  mapping_type_is mapping (before_dot field) "nested" = inr false ->
  mapping_type_is mapping (before_dot field) "text" = inr is_text ->
  filter_clause mapping lookup value
  = inr [(op, BList [BDict [(if is_text then "match" else "term",
                             BDict [(field, clause_value value)])]])].
Proof.
  intros Hs Hop Hn Ht. unfold filter_clause. rewrite Hs. unfold bind_exn. rewrite Hn.
  assert (Hv : (match value with
                | PModel pk => if false then (field +:+ ".id", PInt pk) else (field, value)
                | _ => (field, value)
                end) = (field, value)) by (now destruct value).
  rewrite Hv.
  destruct Hop as [->|[->| ->]]; cbn [str_in existsb String.eqb Ascii.eqb Bool.eqb orb];
    rewrite Ht; destruct value; reflexivity.
Qed.

(** X20: a range lookup on a field that is not nested compiles to one
    [must] range clause with the first element of the value as [gte] and
    the second as [lte]; a value that cannot be subscripted makes the
    compiler raise [TypeError], and a sequence of fewer than two elements
    [IndexError]. *)
Theorem range_lookup_clause (mapping : dict (option string)) (lookup field : string) :
  sanitize_lookup lookup = (field, "range") ->
  mapping_type_is mapping (before_dot field) "nested" = inr false ->
  (forall lo hi more,
      filter_clause mapping lookup (PTuple (lo :: hi :: more))
      = inr [("must", BList [BDict [("range",
                BDict [(field, BDict [("gte", BVal lo); ("lte", BVal hi)])])]])]) /\
  (forall n, filter_clause mapping lookup (PInt n) = inl TypeError) /\
  filter_clause mapping lookup PNone = inl TypeError /\
  (forall lo, filter_clause mapping lookup (PTuple [lo]) = inl IndexError) /\
  filter_clause mapping lookup (PTuple []) = inl IndexError.
Proof.
  intros Hs Hn.
  repeat split; intros; unfold filter_clause; rewrite Hs; unfold bind_exn; rewrite Hn;
    reflexivity.
Qed.

(** X21: a model instance given as the value of a lookup on a nested
    field is replaced by its id: the clause is an exact [term] on the
    [id] sub-field of the path, inside a nested query on the first
    segment of the path. *)
Theorem nested_instance_lookup_clause (mapping : dict (option string))
  (lookup field op : string) (pk : Z) :
  sanitize_lookup lookup = (field, op) ->
  op = "must" \/ op = "must_not" \/ op = "should" ->
  mapping_type_is mapping (before_dot field) "nested" = inr true ->
  filter_clause mapping lookup (PModel pk)
  = inr [("must",
          BList [BDict [("nested",
            BDict [("path", BStr (before_dot field));
                   ("query",
                    BDict [("bool",
                      BDict [(op, BList [BDict [("term",
                                BDict [(field +:+ ".id", BInt pk)])]])])])])]])].
Proof.
  intros Hs Hop Hn. unfold filter_clause. rewrite Hs. unfold bind_exn. rewrite Hn.
  rewrite (nested_is_not_text _ _ Hn).
  destruct Hop as [->|[->| ->]]; reflexivity.
Qed.

(** ** Excluding twice *)


(** X23: excluding an existence lookup is filtering by it with the
    truth value negated.  For a lookup whose operator is [exists] or
    [isnull], [exclude(lookup=v)] is [filter(lookup=(not v))], under the
    lookup as it was written. *)
Theorem exclude_existence_negates_value (es : backend) (w : world) (self : ref)
  (lookup : string) (v : pyval) :
  snd (sanitize_lookup lookup) = "exists" \/ snd (sanitize_lookup lookup) = "isnull" ->
  exclude es self [(lookup, v)] w = filter es self [(lookup, PBool (negb (truthy v)))] w.
Proof.
  intros Hop. apply exclude_as_filter. cbn [exclude_filters]. unfold exclude_entry.
  destruct (sanitize_lookup lookup) as [field op]. cbn [snd] in Hop.
  destruct Hop as [-> | ->]; reflexivity.
Qed.

(** ** The further properties on the test index *)

Lemma make_search_body_never_value_error_witness :
  make_search_body nested_update_spec test_cursor [("id__range", PInt 5)] = inl TypeError /\
  TypeError <> ValueError.
Proof.
  assert (H : make_search_body nested_update_spec test_cursor [("id__range", PInt 5)]
              = inl TypeError) by by_compute.
  split; [exact H|].
  exact (proj1 (make_search_body_never_value_error nested_update_spec test_cursor _ _ H)).
Defined.

Lemma exclude_never_not_implemented_witness :
  cursors test_world !! 0%nat = Some test_cursor /\
  dicts test_world !! filters test_cursor = Some [] /\
  exclude test_backend 0%nat [("id__range", PInt 5)] test_world
  = (inl TypeError, cloned test_cursor [] test_world) /\
  TypeError <> NotImplementedError.
Proof.
  assert (Hc : cursors test_world !! 0%nat = Some test_cursor) by by_compute.
  assert (Hd : dicts test_world !! filters test_cursor = Some []) by by_compute.
  assert (Hx : exclude test_backend 0%nat [("id__range", PInt 5)] test_world
               = (inl TypeError, cloned test_cursor [] test_world)) by by_compute.
  split; [exact Hc|]. split; [exact Hd|]. split; [exact Hx|].
  exact (proj1 (exclude_never_not_implemented test_backend test_world 0%nat test_cursor []
                  _ _ _ Hc Hd Hx)).
Defined.

Lemma search_request_parameters_witness :
  build_search_request nested_update_spec (window (Slice (Some 2) (Some 5)) test_cursor) []
  = inr (request_of (window (Slice (Some 2) (Some 5)) test_cursor) []) /\
  mode (window (Slice (Some 2) (Some 5)) test_cursor) = MODE_SEARCH /\
  dict_get "from_" (fst (request_of (window (Slice (Some 2) (Some 5)) test_cursor) []))
  = Some (BInt 2) /\
  dict_get "size" (fst (request_of (window (Slice (Some 2) (Some 5)) test_cursor) []))
  = Some (BInt 3).
Proof.
  assert (Hreq : build_search_request nested_update_spec
                   (window (Slice (Some 2) (Some 5)) test_cursor) []
                 = inr (request_of (window (Slice (Some 2) (Some 5)) test_cursor) []))
    by by_compute.
  assert (Hm : mode (window (Slice (Some 2) (Some 5)) test_cursor) = MODE_SEARCH)
    by reflexivity.
  destruct (search_request_parameters nested_update_spec _ _ _ Hreq Hm)
    as (_ & _ & _ & Hfrom & Hsize & _).
  split; [exact Hreq|]. split; [exact Hm|]. split; [exact Hfrom|exact Hsize].
Defined.

Lemma mlt_switches_mode_in_place_witness :
  cursors test_world !! 0%nat = Some test_cursor /\
  fst (mlt 0%nat (PInt 7) [("fields", PStr "first_name")] test_world) = inr 0%nat /\
  length (cursors (snd (mlt 0%nat (PInt 7) [("fields", PStr "first_name")] test_world)))
  = 1%nat.
Proof.
  assert (Hc : cursors test_world !! 0%nat = Some test_cursor) by by_compute.
  destruct (mlt_switches_mode_in_place nested_update_spec test_world 0%nat test_cursor
              (PInt 7) [("fields", PStr "first_name")] [] ([], []) Hc) as (Hrun & _).
  split; [exact Hc|]. rewrite Hrun. split; [reflexivity|]. by_compute.
Defined.

Lemma request_sort_witness :
  build_search_request nested_update_spec
    (set_ordering (Some ["first_name"; "-id"]) test_cursor) []
  = inr (request_of (set_ordering (Some ["first_name"; "-id"]) test_cursor) []) /\
  truthy_seq (extra_body (set_ordering (Some ["first_name"; "-id"]) test_cursor)) = false /\
  dict_get "sort"
    (snd (request_of (set_ordering (Some ["first_name"; "-id"]) test_cursor) []))
  = Some (BList [BDict [("first_name", BStr "asc")]; BDict [("id", BStr "desc")];
                 BStr "_score"]).
Proof.
  assert (Hreq : build_search_request nested_update_spec
                   (set_ordering (Some ["first_name"; "-id"]) test_cursor) []
                 = inr (request_of (set_ordering (Some ["first_name"; "-id"]) test_cursor) []))
    by by_compute.
  split; [exact Hreq|]. split; [reflexivity|].
  exact (request_sort nested_update_spec _ _ _ Hreq eq_refl).
Defined.

Lemma empty_ordering_field_raises_witness :
  ordering (set_ordering (Some ["id"; ""]) test_cursor) = Some ["id"; ""] /\
  In "" ["id"; ""] /\
  build_search_request nested_update_spec (set_ordering (Some ["id"; ""]) test_cursor) []
  = inl IndexError.
Proof.
  assert (Hin : In "" ["id"; ""]) by (right; left; reflexivity).
  split; [reflexivity|]. split; [exact Hin|].
  apply (empty_ordering_field_raises nested_update_spec
           (set_ordering (Some ["id"; ""]) test_cursor) [] ["id"; ""]
           (BDict [("query", BDict [("bool", BDict [("must", BList [BDict [("match_all", BDict [])]])])])])
           eq_refl Hin).
  by_compute.
Defined.

Lemma extra_body_overrides_witness :
  unique_keys [("highlight", BDict []); ("query", BDict [("match_none", BDict [])])] /\
  dict_get "query"
    (snd (request_of
            (set_extra_body
               (Some [("highlight", BDict []); ("query", BDict [("match_none", BDict [])])])
               test_cursor) []))
  = Some (BDict [("match_none", BDict [])]).
Proof.
  assert (Hu : unique_keys [("highlight", BDict []);
                            ("query", BDict [("match_none", BDict [])])]).
  { unfold unique_keys. cbn. repeat constructor; cbn; intuition discriminate. }
  split; [exact Hu|].
  destruct (extra_body_overrides nested_update_spec
              (set_extra_body
                 (Some [("highlight", BDict []); ("query", BDict [("match_none", BDict [])])])
                 test_cursor) []
              (request_of
                 (set_extra_body
                    (Some [("highlight", BDict []);
                           ("query", BDict [("match_none", BDict [])])])
                    test_cursor) [])
              _ ltac:(by_compute) eq_refl Hu) as (compiled & body3 & _ & _ & Hget).
  now rewrite Hget.
Defined.

Lemma facet_limit_on_last_field_only_witness :
  In "first_name" ["first_name"; "last_name"] /\
  dict_get "first_name" (make_aggs ["first_name"; "last_name"] (Some 5))
  = Some (terms_agg "first_name" []) /\
  dict_get "last_name" (make_aggs ["first_name"; "last_name"] (Some 5))
  = Some (terms_agg "last_name" [("size", BInt 5)]).
Proof.
  assert (H1 : In "first_name" ["first_name"; "last_name"]) by (left; reflexivity).
  assert (H2 : In "last_name" ["first_name"; "last_name"]) by (right; left; reflexivity).
  split; [exact H1|]. split.
  - exact (facet_limit_on_last_field_only _ (Some 5) _ H1).
  - exact (facet_limit_on_last_field_only _ (Some 5) _ H2).
Defined.

Lemma getitem_returns_rows_of_window_witness :
  cursors test_world !! 0%nat = Some test_cursor /\
  dicts test_world !! filters test_cursor = Some [] /\
  fst (__getitem__ test_backend nested_update_spec 0%nat (Int 7) test_world) = inl IndexError /\
  fst (__getitem__ test_backend nested_update_spec 0%nat (Int 3) test_world)
  = inr (Row (RawRow (test_doc 4 "Foo" "Bar"))).
Proof.
  assert (Hc : cursors test_world !! 0%nat = Some test_cursor) by by_compute.
  assert (Hd : dicts test_world !! filters test_cursor = Some []) by by_compute.
  destruct (getitem_returns_rows_of_window test_backend nested_update_spec
              test_world 0%nat test_cursor [] Hc Hd) as (Hint & _).
  split; [exact Hc|]. split; [exact Hd|]. split.
  - exact (Hint 7 (request_of (window (Int 7) test_cursor) [])
             ltac:(by_compute) ltac:(by_compute)).
  - exact (Hint 3 (request_of (window (Int 3) test_cursor) [])
             ltac:(by_compute) ltac:(by_compute)).
Defined.

Lemma chaining_methods_only_allocate_witness :
  cursors test_world !! 0%nat = Some test_cursor /\
  dicts test_world !! filters test_cursor = Some [] /\
  order_by test_backend 0%nat ["-id"] test_world
  = (inr 1%nat, chained (set_ordering (Some ["-id"])) test_cursor [] test_world) /\
  cursors (chained (set_ordering (Some ["-id"])) test_cursor [] test_world) !! 0%nat
  = Some test_cursor.
Proof.
  assert (Hc : cursors test_world !! 0%nat = Some test_cursor) by by_compute.
  assert (Hd : dicts test_world !! filters test_cursor = Some []) by by_compute.
  destruct (chaining_methods_only_allocate test_backend test_world 0%nat test_cursor []
              Hc Hd) as (Horder & _ & _ & _ & _ & Hframe).
  split; [exact Hc|]. split; [exact Hd|]. split; [exact (Horder ["-id"])|].
  exact (proj1 (Hframe (set_ordering (Some ["-id"]))) 0%nat test_cursor Hc).
Defined.

Lemma search_checks_arguments_first_witness :
  cursors test_world !! 0%nat = Some test_cursor /\
  dicts test_world !! filters test_cursor = Some [] /\
  search test_backend 0%nat [] [] test_world = (inl TypeError, test_world) /\
  search test_backend 0%nat ["john"] [] test_world
  = (inr 1%nat, chained (set_query "john") test_cursor [] test_world).
Proof.
  assert (Hc : cursors test_world !! 0%nat = Some test_cursor) by by_compute.
  assert (Hd : dicts test_world !! filters test_cursor = Some []) by by_compute.
  destruct (search_checks_arguments_first test_backend test_world 0%nat test_cursor []
              Hc Hd) as (Hnone & _ & Htext & _).
  split; [exact Hc|]. split; [exact Hd|]. split; [exact Hnone|exact (Htext "john" [])].
Defined.

Lemma count_after_filter_asks_again_witness :
  cursors counted_once !! 0%nat = Some (set_total (Some 4) test_cursor) /\
  dicts counted_once !! filters (set_total (Some 4) test_cursor) = Some [] /\
  exists w',
    (qs <~ filter test_backend 0%nat [("last_name", PStr "Smith")] ;;
     count test_backend nested_update_spec qs)%method counted_once = (inr (Some 4), w') /\
    length (count_log w') = 2%nat.
Proof.
  assert (Hc : cursors counted_once !! 0%nat = Some (set_total (Some 4) test_cursor))
    by by_compute.
  assert (Hd : dicts counted_once !! filters (set_total (Some 4) test_cursor) = Some [])
    by by_compute.
  split; [exact Hc|]. split; [exact Hd|].
  destruct (count_after_filter_asks_again test_backend nested_update_spec counted_once 0%nat
              (set_total (Some 4) test_cursor) [] [("last_name", PStr "Smith")]
              (BDict [("query", BDict [("bool", BDict [("must", BList [BDict [("term",
                 BDict [("last_name", BVal (PStr "Smith"))])]])])])])
              Hc Hd eq_refl ltac:(by_compute))
    as (w' & Hrun & Hlog & _).
  exists w'. split; [exact Hrun|]. now rewrite Hlog.
Defined.


Lemma deserialize_after_evaluation_breaks_contains_witness :
  cursors iterated_world !! 0%nat = Some iterated_cursor /\
  fst ((deserialize 0%nat ;;;
        __contains__ test_backend nested_update_spec 0%nat
          (test_deserialize (test_doc 1 "John" "Smith")))%method iterated_world)
  = inl AttributeError.
Proof.
  assert (Hc : cursors iterated_world !! 0%nat = Some iterated_cursor) by by_compute.
  split; [exact Hc|].
  now rewrite (deserialize_after_evaluation_breaks_contains test_backend nested_update_spec
                 iterated_world 0%nat iterated_cursor
                 (test_doc 1 "John" "Smith")
                 [RawRow (test_doc 2 "Jack" "Smith"); RawRow (test_doc 3 "Mama" "Smith");
                  RawRow (test_doc 4 "Foo" "Bar")]
                 (test_deserialize (test_doc 1 "John" "Smith")) Hc ltac:(by_compute)).
Defined.

Lemma filter_twice_updates_in_order_witness :
  cursors test_world !! 0%nat = Some test_cursor /\
  dicts test_world !! filters test_cursor = Some [] /\
  dict_get "first_name"
    (dict_update [] ([("first_name", PStr "John")] ++ [("first_name", PStr "Jack")]))
  = Some (PStr "Jack").
Proof.
  assert (Hc : cursors test_world !! 0%nat = Some test_cursor) by by_compute.
  assert (Hd : dicts test_world !! filters test_cursor = Some []) by by_compute.
  destruct (filter_twice_updates_in_order test_backend test_world 0%nat test_cursor []
              [("first_name", PStr "John")] [("first_name", PStr "Jack")] Hc Hd)
    as (w' & _ & _ & _ & Hlast).
  split; [exact Hc|]. split; [exact Hd|].
  exact (Hlast "first_name" (PStr "Jack") [] eq_refl).
Defined.


Lemma complete_ignores_the_query_state_witness :
  cursors test_world !! 0%nat = Some test_cursor /\
  complete test_backend 0%nat "first_name" "jo" test_world
  = (inr [], with_search_log [completion_request "django-test" "first_name" "jo"] test_world).
Proof.
  assert (Hc : cursors test_world !! 0%nat = Some test_cursor) by by_compute.
  destruct (complete_ignores_the_query_state test_backend test_world 0%nat test_cursor
              "first_name" "jo" Hc) as (Hw & Hnone & _).
  split; [exact Hc|].
  rewrite (surjective_pairing (complete test_backend 0%nat "first_name" "jo" test_world)).
  rewrite Hw, (Hnone eq_refl). reflexivity.
Defined.

Lemma equality_lookup_clause_witness :
  sanitize_lookup "first_name" = ("first_name", "must") /\
  filter_clause (es_mapping TestModel) "first_name" (PStr "John")
  = inr [("must", BList [BDict [("match", BDict [("first_name", BVal (PStr "John"))])]])].
Proof.
  assert (Hs : sanitize_lookup "first_name" = ("first_name", "must")) by by_compute.
  split; [exact Hs|].
  exact (equality_lookup_clause (es_mapping TestModel) "first_name" "first_name" "must"
           (PStr "John") true Hs (or_introl eq_refl) eq_refl eq_refl).
Defined.

Lemma range_lookup_clause_witness :
  sanitize_lookup "id__range" = ("id", "range") /\
  filter_clause (es_mapping TestModel) "id__range" (PTuple [PInt 2; PInt 3])
  = inr [("must", BList [BDict [("range",
            BDict [("id", BDict [("gte", BVal (PInt 2)); ("lte", BVal (PInt 3))])])]])] /\
  filter_clause (es_mapping TestModel) "id__range" (PInt 2) = inl TypeError.
Proof.
  assert (Hs : sanitize_lookup "id__range" = ("id", "range")) by by_compute.
  destruct (range_lookup_clause (es_mapping TestModel) "id__range" "id" Hs eq_refl)
    as (Hpair & Hint & _).
  split; [exact Hs|]. split; [exact (Hpair (PInt 2) (PInt 3) [])|exact (Hint 2)].
Defined.

Lemma nested_instance_lookup_clause_witness :
  sanitize_lookup "groups" = ("groups", "must") /\
  filter_clause (es_mapping TestModel) "groups" (PModel 7)
  = inr [("must",
          BList [BDict [("nested",
            BDict [("path", BStr "groups");
                   ("query",
                    BDict [("bool",
                      BDict [("must", BList [BDict [("term",
                                BDict [("groups.id", BInt 7)])]])])])])]])].
Proof.
  assert (Hs : sanitize_lookup "groups" = ("groups", "must")) by by_compute.
  split; [exact Hs|].
  exact (nested_instance_lookup_clause (es_mapping TestModel) "groups" "groups" "must" 7
           Hs (or_introl eq_refl) eq_refl).
Defined.


Lemma exclude_existence_negates_value_witness :
  snd (sanitize_lookup "email__isnull") = "isnull" /\
  exclude test_backend 0%nat [("email__isnull", PBool false)] test_world
  = filter test_backend 0%nat [("email__isnull", PBool true)] test_world.
Proof.
  assert (Hs : snd (sanitize_lookup "email__isnull") = "isnull") by by_compute.
  split; [exact Hs|].
  exact (exclude_existence_negates_value test_backend test_world 0%nat "email__isnull"
           (PBool false) (or_intror Hs)).
Defined.

(** ** The read-only properties *)

Section ReadOnly.

Context (es : backend).
Context (nested_update : dict body -> dict body -> dict body).

Local Open Scope method_scope.

(** X24: the properties [response], [facets] and [suggestions] force
    the search once.  On a query set with an empty cache each of them
    sends the request and returns what the response holds: the response
    itself, its aggregations when facets were asked for (and otherwise the
    facets the object had, [None] on a fresh clone), and its suggestions.
    On a query set that holds rows [facets] and [suggestions] return what
    is stored and send nothing. *)
Theorem properties_force_the_search (w : world) (self : ref) (c : cursor) (flt : dict pyval) :
  cursors w !! self = Some c ->
  dicts w !! filters c = Some flt ->
  (is_evaluated c = false ->
   forall req,
     build_search_request nested_update c flt = inr req ->
     facets_available c (es_search es (fst req)) = true ->
     let r := es_search es (fst req) in
     response_of es nested_update self w = (inr r, searched self c req r w) /\
     facets es nested_update self w
     = (inr (if truthy_seq (facets_fields c) then aggregations r else _facets c),
        searched self c req r w) /\
     suggestions es nested_update self w = (inr (suggest_payload r), searched self c req r w)) /\
  (is_evaluated c = true ->
   facets es nested_update self w = (inr (_facets c), w) /\
   suggestions es nested_update self w = (inr (_suggestions c), w)).
Proof.
  intros Hc Hd. split.
  - intros He req Hreq Hf r.
    assert (Hc' : cursors (searched self c req r w) !! self = Some (store_response c req r))
      by (cbn; eapply lookup_updated, Hc).
    unfold response_of, facets, suggestions, bind.
    rewrite (do_search_unevaluated es nested_update _ _ _ _ _ Hc He Hd Hreq Hf).
    fold r. rewrite (get_cursor_run _ _ _ Hc'). repeat split.
  - intros He. unfold facets, suggestions, bind.
    rewrite (do_search_evaluated es nested_update _ _ _ Hc He), (get_cursor_run _ _ _ Hc).
    split; reflexivity.
Qed.

End ReadOnly.

Lemma properties_force_the_search_witness :
  cursors test_world !! 0%nat = Some test_cursor /\
  dicts test_world !! filters test_cursor = Some [] /\
  is_evaluated test_cursor = false /\
  facets test_backend nested_update_spec 0%nat test_world = (inr None, iterated_world) /\
  cursors iterated_world !! 0%nat = Some iterated_cursor /\
  is_evaluated iterated_cursor = true /\
  suggestions test_backend nested_update_spec 0%nat iterated_world = (inr None, iterated_world).
Proof.
  assert (Hc : cursors test_world !! 0%nat = Some test_cursor) by by_compute.
  assert (Hd : dicts test_world !! filters test_cursor = Some []) by by_compute.
  assert (Hc1 : cursors iterated_world !! 0%nat = Some iterated_cursor) by by_compute.
  assert (Hd1 : dicts iterated_world !! filters iterated_cursor = Some []) by by_compute.
  destruct (properties_force_the_search test_backend nested_update_spec test_world 0%nat
              test_cursor [] Hc Hd) as (Hfresh & _).
  destruct (Hfresh eq_refl (request_of test_cursor []) ltac:(by_compute) ltac:(by_compute))
    as (_ & Hfacets & _).
  destruct (properties_force_the_search test_backend nested_update_spec iterated_world 0%nat
              iterated_cursor [] Hc1 Hd1) as (_ & Hcached).
  destruct (Hcached ltac:(by_compute)) as (_ & Hsugg).
  split; [exact Hc|]. split; [exact Hd|]. split; [reflexivity|].
  split; [rewrite Hfacets; by_compute|].
  split; [exact Hc1|]. split; [by_compute|]. rewrite Hsugg. by_compute.
Defined.
